(** * Harmony Guide: the integration layer of [streamlit_app.py]

    A shallow embedding of the [MusicRecommender] class: the recommendation
    request of [run], the catalog lookup [get_song_info], the rendering
    decisions of [display_recommendation] and the link table of
    [_show_alternatives], together with the Python operations they rely on
    ([str.split], [str.strip], subscription, [dict.get], truthiness,
    [urllib.parse.quote] and [quote_plus]).

    Representation.  A Python [str] is represented by the [string] of its
    UTF-8 bytes, which is also what [quote] percent-encodes.  Operations that
    Python defines on code points ([strip], [split()] without separator,
    indexing) go through [utf8_chars], which cuts the bytes into characters.
    A [str] that holds a lone surrogate has no UTF-8 form and is outside the
    model. *)

From Stdlib Require Import String Ascii List ZArith NArith Bool Lia.
From Stdlib Require Import DecimalString.
Import ListNotations.
Local Open Scope list_scope.
Local Open Scope string_scope.

Set Implicit Arguments.
Set Warnings "-register-all".

(** ** Byte strings *)

Module Str.

Definition byte (n : N) : ascii := ascii_of_N n.

Definition code (a : ascii) : N := N_of_ascii a.

(** The double quote, written by its code. *)
Definition dquote : string := String (byte 34) EmptyString.

Fixpoint of_codes (l : list N) : string :=
  match l with
  | [] => EmptyString
  | n :: l' => String (byte n) (of_codes l')
  end.

Fixpoint take (n : nat) (s : string) : string :=
  match n, s with
  | S n', String a s' => String a (take n' s')
  | _, _ => EmptyString
  end.

Fixpoint drop (n : nat) (s : string) : string :=
  match n, s with
  | S n', String _ s' => drop n' s'
  | _, _ => s
  end.

(** [strip_prefix p s] is the rest of [s] after its prefix [p], if [p] is
    a prefix of [s]. *)
Fixpoint strip_prefix (p s : string) : option string :=
  match p, s with
  | EmptyString, _ => Some s
  | String a p', String b s' =>
      if Ascii.eqb a b then strip_prefix p' s' else None
  | String _ _, EmptyString => None
  end.

Fixpoint flat_map (f : ascii -> string) (s : string) : string :=
  match s with
  | EmptyString => EmptyString
  | String a s' => f a ++ flat_map f s'
  end.

Fixpoint mem (a : ascii) (s : string) : bool :=
  match s with
  | EmptyString => false
  | String b s' => Ascii.eqb a b || mem a s'
  end.

Definition is_empty (s : string) : bool :=
  match s with EmptyString => true | String _ _ => false end.

End Str.

(** ** Python strings *)

Module PyStr.

(** *** Characters

    The number of bytes of the UTF-8 character that starts with lead byte
    [a]. *)
Definition char_width (a : ascii) : nat :=
  let n := Str.code a in
  if (n <? 192)%N then 1
  else if (n <? 224)%N then 2
  else if (n <? 240)%N then 3
  else 4.

(** [chars_from skip s]: the characters of [s] once its first [skip]
    bytes, which belong to a character already cut, are passed. *)
Fixpoint chars_from (skip : nat) (s : string) : list string :=
  match s with
  | EmptyString => []
  | String a s' =>
      match skip with
      | S k => chars_from k s'
      | O =>
          String a (Str.take (char_width a - 1) s')
            :: chars_from (char_width a - 1) s'
      end
  end.

Definition utf8_chars (s : string) : list string := chars_from 0 s.

(** *** Whitespace

    The characters for which [str.isspace] holds, by code point:
    U+0009..U+000D, U+001C..U+0020, U+0085, U+00A0, U+1680,
    U+2000..U+200A, U+2028, U+2029, U+202F, U+205F, U+3000; each is
    listed here by its UTF-8 bytes. *)
Definition whitespace : list string :=
  map Str.of_codes
    ([[9]; [10]; [11]; [12]; [13]; [28]; [29]; [30]; [31]; [32];
      [194; 133]; [194; 160]; [225; 154; 128];
      [226; 128; 128]; [226; 128; 129]; [226; 128; 130]; [226; 128; 131];
      [226; 128; 132]; [226; 128; 133]; [226; 128; 134]; [226; 128; 135];
      [226; 128; 136]; [226; 128; 137]; [226; 128; 138];
      [226; 128; 168]; [226; 128; 169]; [226; 128; 175];
      [226; 129; 159]; [227; 128; 128]])%N.

Definition isspace (c : string) : bool :=
  existsb (String.eqb c) whitespace.

Fixpoint dropwhile {A} (p : A -> bool) (l : list A) : list A :=
  match l with
  | [] => []
  | x :: l' => if p x then dropwhile p l' else l
  end.

Definition join (l : list string) : string := String.concat "" l.

(** [s.lstrip()], [s.rstrip()] and [s.strip()]. *)
Definition lstrip_chars (l : list string) : list string :=
  dropwhile isspace l.

Definition rstrip_chars (l : list string) : list string :=
  rev (dropwhile isspace (rev l)).

Definition strip (s : string) : string :=
  join (rstrip_chars (lstrip_chars (utf8_chars s))).

(** [s.split()]: the maximal runs of characters that are not whitespace.
    [cur] holds the run being read. *)
Definition flush (cur : string) (rest : list string) : list string :=
  if Str.is_empty cur then rest else cur :: rest.

Fixpoint split_ws_chars (cur : string) (l : list string) : list string :=
  match l with
  | [] => flush cur []
  | c :: l' =>
      if isspace c then flush cur (split_ws_chars "" l')
      else split_ws_chars (cur ++ c) l'
  end.

Definition split_ws (s : string) : list string :=
  split_ws_chars "" (utf8_chars s).

(** *** [s.split(sep)] for a separator that is not empty

    [partition sep s] cuts [s] at the leftmost occurrence of [sep]. *)
Fixpoint partition (sep s : string) : option (string * string) :=
  match Str.strip_prefix sep s with
  | Some rest => Some (EmptyString, rest)
  | None =>
      match s with
      | EmptyString => None
      | String a s' =>
          match partition sep s' with
          | Some (before, rest) => Some (String a before, rest)
          | None => None
          end
      end
  end.

(** Python scans left to right and cuts at each occurrence it meets; every
    cut consumes at least one byte, so [length s] rounds are enough
    (see [split_rounds_enough]). *)
Fixpoint split_rounds (n : nat) (sep s : string) : list string :=
  match n with
  | O => [s]
  | S n' =>
      match partition sep s with
      | None => [s]
      | Some (before, rest) => before :: split_rounds n' sep rest
      end
  end.

Definition split (s sep : string) : list string :=
  split_rounds (String.length s) sep s.

(** [s.replace(old, new)] for a pattern [old] of one byte. *)
Definition replace1 (old : ascii) (new : string) (s : string) : string :=
  Str.flat_map
    (fun a => if Ascii.eqb a old then new else String a EmptyString) s.

End PyStr.


(** ** Python values and exceptions *)

Module Py.

(** The values [json()] and the catalog client hand to the program.  JSON
    numbers are kept as integers: the program only subscripts values, calls
    [get] and [split] on them and tests their truth, and a float behaves as
    an integer does under each of these. *)
Inductive value : Type :=
| PNone
| PBool (b : bool)
| PInt (n : Z)
| PStr (s : string)
| PList (l : list value)
| PDict (d : list (string * value)).

Definition type_name (v : value) : string :=
  match v with
  | PNone => "NoneType"
  | PBool _ => "bool"
  | PInt _ => "int"
  | PStr _ => "str"
  | PList _ => "list"
  | PDict _ => "dict"
  end.

(** The exception classes the program can meet.  [HTTPError] is a subclass of
    [RequestException]; [OtherException] stands for every other subclass of
    [Exception] (a catalog client error, for one).  What is no [Exception]
    ([KeyboardInterrupt], [SystemExit]) is outside the model. *)
Inductive exc_class : Type :=
| KeyError
| TypeError
| IndexError
| AttributeError
| HTTPError
| RequestException
| OtherException.

(** An exception: its class and [str(e)]. *)
Record exc : Type := mk_exc { exc_class_of : exc_class; exc_str : string }.

Definition is_RequestException (e : exc) : bool :=
  match exc_class_of e with
  | HTTPError | RequestException => true
  | _ => false
  end.

(** Every exception of the model is an [Exception]. *)
Definition is_Exception (e : exc) : bool := true.

Definition is_KeyError (e : exc) : bool :=
  match exc_class_of e with
  | KeyError => true
  | _ => false
  end.

Inductive result (A : Type) : Type :=
| Ok (a : A)
| Raise (e : exc).

Arguments Ok {A} a.
Arguments Raise {A} e.

Definition decimal (n : Z) : string := NilZero.string_of_int (Z.to_int n).

(** [str(KeyError(k))] is [repr(k)]; the keys of this program are plain
    words, whose [repr] is the word between single quotes. *)
Definition key_error (k : string) : exc :=
  mk_exc KeyError ("'" ++ k ++ "'").

Definition not_subscriptable (v : value) : exc :=
  mk_exc TypeError ("'" ++ type_name v ++ "' object is not subscriptable").

Definition no_attribute (v : value) (attr : string) : exc :=
  mk_exc AttributeError
    ("'" ++ type_name v ++ "' object has no attribute '" ++ attr ++ "'").

Inductive key : Type :=
| KStr (s : string)
| KInt (i : Z).

Fixpoint assoc {A} (k : string) (d : list (string * A)) : option A :=
  match d with
  | [] => None
  | (k', v) :: d' => if String.eqb k k' then Some v else assoc k d'
  end.

(** A sequence index: negative indices count from the end. *)
Definition seq_index {A} (l : list A) (i : Z) : option A :=
  let n := Z.of_nat (List.length l) in
  let j := if (i <? 0)%Z then (i + n)%Z else i in
  if (j <? 0)%Z then None else nth_error l (Z.to_nat j).

(** [v[k]]. *)
Definition getitem (v : value) (k : key) : result value :=
  match v, k with
  | PDict d, KStr s =>
      match assoc s d with
      | Some x => Ok x
      | None => Raise (key_error s)
      end
  | PDict d, KInt i => Raise (mk_exc KeyError (decimal i))
  | PList l, KInt i =>
      match seq_index l i with
      | Some x => Ok x
      | None => Raise (mk_exc IndexError "list index out of range")
      end
  | PList l, KStr _ =>
      Raise
        (mk_exc TypeError "list indices must be integers or slices, not str")
  | PStr s, KInt i =>
      match seq_index (PyStr.utf8_chars s) i with
      | Some c => Ok (PStr c)
      | None => Raise (mk_exc IndexError "string index out of range")
      end
  | PStr s, KStr _ =>
      Raise (mk_exc TypeError "string indices must be integers, not 'str'")
  | _, _ => Raise (not_subscriptable v)
  end.

(** [v.get(k, default)]: only a [dict] has the method. *)
Definition get (v : value) (k : string) (default : value) : result value :=
  match v with
  | PDict d =>
      match assoc k d with
      | Some x => Ok x
      | None => Ok default
      end
  | _ => Raise (no_attribute v "get")
  end.

(** [v.split(sep)]: only a [str] has the method. *)
Definition split (v : value) (sep : string) : result (list string) :=
  match v with
  | PStr s => Ok (PyStr.split s sep)
  | _ => Raise (no_attribute v "split")
  end.

(** [l[-1]]. *)
Definition last_item (l : list string) : result string :=
  match seq_index l (-1) with
  | Some x => Ok x
  | None => Raise (mk_exc IndexError "list index out of range")
  end.

(** [l[0]]. *)
Definition first_item (l : list string) : result string :=
  match seq_index l 0 with
  | Some x => Ok x
  | None => Raise (mk_exc IndexError "list index out of range")
  end.

(** [bool(v)]. *)
Definition truthy (v : value) : bool :=
  match v with
  | PNone => false
  | PBool b => b
  | PInt n => negb (n =? 0)%Z
  | PStr s => negb (Str.is_empty s)
  | PList l => match l with [] => false | _ => true end
  | PDict d => match d with [] => false | _ => true end
  end.

(** [a or b]. *)
Definition or_else (a b : value) : value := if truthy a then a else b.

End Py.

(** ** [urllib.parse.quote] and [quote_plus] *)

Module Urllib.

Definition always_safe : string :=
  "ABCDEFGHIJKLMNOPQRSTUVWXYZabcdefghijklmnopqrstuvwxyz0123456789_.-~".

Definition hex_digit (n : N) : ascii :=
  match String.get (N.to_nat n) "0123456789ABCDEF" with
  | Some a => a
  | None => "0"%char
  end.

(** ["%XX"], the escape of one byte. *)
Definition escape (a : ascii) : string :=
  String "%"%char
    (String (hex_digit (Str.code a / 16)%N)
       (String (hex_digit (Str.code a mod 16)%N) EmptyString)).

Definition quote_byte (safe : string) (a : ascii) : string :=
  if Str.mem a always_safe || Str.mem a safe
  then String a EmptyString
  else escape a.

(** [quote(s, safe)]: the UTF-8 bytes of [s], each kept when it is safe and
    escaped otherwise. *)
Definition quote_with (safe : string) (s : string) : string :=
  Str.flat_map (quote_byte safe) s.

(** [quote(s)]: [safe] defaults to ["/"]. *)
Definition quote (s : string) : string := quote_with "/" s.

(** [quote_plus(s)]: [safe] defaults to the empty string; when [s] holds a
    space, spaces are kept by [quote] and then replaced by ["+"]. *)
Definition quote_plus (s : string) : string :=
  if Str.mem " "%char s
  then PyStr.replace1 " "%char "+" (quote_with " " s)
  else quote_with "" s.

End Urllib.

(** ** What the program does to the outside: requests and page elements *)

Module Page.

(** The HTML blocks handed to [st.markdown], named by what they show; the
    values interpolated into each are its arguments, the fixed markup and
    CSS around them is not reproduced. *)
Inductive markup : Type :=
| Heading                                        (* [run]: the sub-title *)
| SpotifyButton (href : Py.value)                (* "Open in Spotify" *)
| TrackCard (song_name artist_name note : string)
| ServiceStyle                                   (* the [.service-link] CSS *)
| ServiceLink (url service label : string).

Inductive event : Type :=
| HttpGet (url : string)                         (* [requests.get] *)
| CatalogSearch (q : string) (limit : Z) (type : string)  (* [sp.search] *)
| Warning (msg : string)                         (* [st.warning] *)
| Error (msg : string)                           (* [st.error] *)
| Spinner (text : string)
| Columns (spec : list Z)
| Image (image caption : Py.value)
| Audio (data : Py.value) (format : string)
| Expander (label : string) (expanded : bool)
| Markdown (body : markup).

End Page.

(** ** The monad of the program: a trace of events and a result or an
    exception *)

Module M.

Import Py Page.

Definition t (A : Type) : Type := (list event * result A)%type.

Definition ret {A} (a : A) : t A := ([], Ok a).

Definition raise {A} (e : exc) : t A := ([], Raise e).

Definition lift {A} (r : result A) : t A := ([], r).

Definition emit (ev : event) : t unit := ([ev], Ok tt).

Definition bind {A B} (m : t A) (f : A -> t B) : t B :=
  match m with
  | (tr, Ok a) => let (tr', r) := f a in ((tr ++ tr')%list, r)
  | (tr, Raise e) => (tr, Raise e)
  end.

(** [try: m  except C1 as e: h1  except C2 as e: h2 ...]: the first clause
    whose class test holds takes the exception; what a handler raises is not
    offered to the clauses after it. *)
Definition handler (A : Type) : Type := ((exc -> bool) * (exc -> t A))%type.

Fixpoint select {A} (clauses : list (handler A)) (e : exc) : option (t A) :=
  match clauses with
  | [] => None
  | (handles, h) :: clauses' =>
      if handles e then Some (h e) else select clauses' e
  end.

Definition try_except {A} (m : t A) (clauses : list (handler A)) : t A :=
  match m with
  | (tr, Raise e) =>
      match select clauses e with
      | Some (tr', r) => ((tr ++ tr')%list, r)
      | None => m
      end
  | (_, Ok _) => m
  end.

Definition trace {A} (m : t A) : list event := fst m.

Definition outcome {A} (m : t A) : result A := snd m.

End M.

Declare Scope py_scope.
Delimit Scope py_scope with py.

Notation "x <- m ;; k" := (M.bind m (fun x => k))
  (at level 61, m at next level, right associativity) : py_scope.
Notation "m ;; k" := (M.bind m (fun _ => k))
  (at level 61, right associativity) : py_scope.
Notation "'except' handles 'as' e => h" :=
  (handles, fun e => h)
  (at level 62, e name, h at level 61, only parsing) : py_scope.

Local Open Scope py_scope.

(** ** The [requests] response *)

Module Requests.

Import Py.

Record response : Type := mk_response {
  status_code : Z;
  reason : string;
  url : string;
  json : result value         (* what [response.json()] returns or raises *)
}.

Definition http_error (r : response) (kind : string) : exc :=
  mk_exc HTTPError
    (decimal (status_code r) ++ " " ++ kind ++ ": " ++ reason r
       ++ " for url: " ++ url r).

(** [response.raise_for_status()]. *)
Definition raise_for_status (r : response) : result unit :=
  if ((400 <=? status_code r) && (status_code r <? 500))%Z
  then Raise (http_error r "Client Error")
  else if ((500 <=? status_code r) && (status_code r <? 600))%Z
  then Raise (http_error r "Server Error")
  else Ok tt.

End Requests.

(** ** The program *)

Import Py Page.

(** The fields of [self] that the integration code reads: the endpoint of the
    recommendation service and the [search] method of the catalog client. *)
Record MusicRecommender : Type := mk_recommender {
  api_url : string;
  sp_search : string -> Z -> string -> result value
}.

Section Program.

(** [requests.get], as the network answers it. *)
Variable requests_get : string -> result Requests.response.

Variable self : MusicRecommender.

Definition search (q : string) (limit : Z) (type : string) : M.t value :=
  M.emit (CatalogSearch q limit type) ;;
  M.lift (sp_search self q limit type).

Definition http_get (url : string) : M.t Requests.response :=
  M.emit (HttpGet url) ;;
  M.lift (requests_get url).

(** Lines 48-55: the record built from the first match. *)
Definition track_record (track : value) : result value :=
  M.outcome (
    preview_url <- M.lift (get track "preview_url" PNone) ;;
    explicit <- M.lift (get track "explicit" (PBool false)) ;;
    spotify_id <- M.lift (getitem track (KStr "id")) ;;
    album_cover <-
      (album <- M.lift (getitem track (KStr "album")) ;;
       images <- M.lift (getitem album (KStr "images")) ;;
       if truthy images then
         album' <- M.lift (getitem track (KStr "album")) ;;
         images' <- M.lift (getitem album' (KStr "images")) ;;
         image <- M.lift (getitem images' (KInt 0)) ;;
         M.lift (getitem image (KStr "url"))
       else M.ret PNone) ;;
    release_date <-
      (album <- M.lift (getitem track (KStr "album")) ;;
       M.lift (get album "release_date" (PStr ""))) ;;
    spotify_url <-
      (external_urls <- M.lift (getitem track (KStr "external_urls")) ;;
       M.lift (getitem external_urls (KStr "spotify"))) ;;
    M.ret (PDict [("preview_url", preview_url);
                  ("explicit", explicit);
                  ("spotify_id", spotify_id);
                  ("album_cover", album_cover);
                  ("release_date", release_date);
                  ("spotify_url", spotify_url)])).

(** [results['tracks']['items']]. *)
Definition tracks_items (results : value) : result value :=
  M.outcome (
    tracks <- M.lift (getitem results (KStr "tracks")) ;;
    M.lift (getitem tracks (KStr "items"))).

Definition search_query (song_name artist_name : string) : string :=
  "track:" ++ Str.dquote ++ song_name ++ Str.dquote
    ++ " artist:" ++ Str.dquote ++ artist_name ++ Str.dquote.

(** Lines 44-55: what is made of the search results. *)
Definition match_record (results : value) : result value :=
  M.outcome (
    items <- M.lift (tracks_items results) ;;
    if negb (truthy items) then M.ret PNone
    else
      items' <- M.lift (tracks_items results) ;;
      track <- M.lift (getitem items' (KInt 0)) ;;
      M.lift (track_record track)).

(** Lines 40-55: the body of the [try]. *)
Definition get_song_info_try (song_name artist_name : string) : M.t value :=
  let query := search_query song_name artist_name in
  results <- search query 1 "track" ;;
  M.lift (match_record results).

Definition get_song_info (song_name artist_name : string) : M.t value :=
  M.try_except (get_song_info_try song_name artist_name)
    [except is_Exception as e =>
       (M.emit (Error ("Track lookup error: " ++ exc_str e)) ;;
        M.ret PNone)].

Definition no_cover : string :=
  "https://via.placeholder.com/400x400.png?text=No+Album+Cover".

Definition display_recommendation (song_name artist_name : string)
    : M.t unit :=
  M.emit (Spinner "🔍 Deep searching across multiple sources...") ;;
  track_info <- get_song_info song_name artist_name ;;
  M.emit (Columns [1; 2]%Z) ;;
  (* with col1 *)
  cover_url <-
    (if truthy track_info
     then M.lift (get track_info "album_cover" PNone)
     else M.ret PNone) ;;
  caption <- M.lift (get track_info "track_name" (PStr "")) ;;
  M.emit (Image (or_else cover_url (PStr no_cover)) caption) ;;
  (* with col2 *)
  (if truthy track_info then
     preview_url <- M.lift (getitem track_info (KStr "preview_url")) ;;
     if truthy preview_url then
       data <- M.lift (getitem track_info (KStr "preview_url")) ;;
       M.emit (Audio data "audio/mp3")
     else
       href <- M.lift (getitem track_info (KStr "spotify_url")) ;;
       M.emit (Markdown (SpotifyButton href))
   else M.ret tt) ;;
  note <-
    (if truthy track_info then
       explicit <- M.lift (get track_info "explicit" PNone) ;;
       M.ret (if truthy explicit then "⚠️ Explicit Content" else "")
     else M.ret "") ;;
  M.emit (Markdown (TrackCard song_name artist_name note)).

(** Lines 111-120: the [urls] dictionary, in insertion order. *)
Definition alternative_urls (song_name artist_name : string)
    (spotify_id : option string) : list (string * string) :=
  let base_query := song_name ++ " " ++ artist_name in
  [("Spotify Direct",
    match spotify_id with
    | Some id =>
        if truthy (PStr id)
        then "https://open.spotify.com/track/" ++ id
        else "https://open.spotify.com/search/" ++ Urllib.quote base_query
    | None => "https://open.spotify.com/search/" ++ Urllib.quote base_query
    end);
   ("YouTube Music",
    "https://music.youtube.com/search?q=" ++ Urllib.quote_plus base_query);
   ("SoundCloud",
    "https://soundcloud.com/search?q=" ++ Urllib.quote_plus base_query);
   ("Deezer", "https://www.deezer.com/search/" ++ Urllib.quote base_query)].

Fixpoint for_each {A} (l : list A) (body : A -> M.t unit) : M.t unit :=
  match l with
  | [] => M.ret tt
  | x :: l' => body x ;; for_each l' body
  end.

Definition _show_alternatives (song_name artist_name : string)
    (spotify_id : option string) : M.t unit :=
  let urls := alternative_urls song_name artist_name spotify_id in
  M.emit (Expander "🔊 Alternative Listening Options" true) ;;
  M.emit (Markdown ServiceStyle) ;;
  for_each urls (fun '(service, url) =>
    label <- M.lift (first_item (PyStr.split_ws service)) ;;
    M.emit (Markdown (ServiceLink url service label))).

(** Line 284: [result['recommended_song'].split(": ")[-1]]. *)
Definition recommended_song_of (result : value) : Py.result string :=
  M.outcome (
    field <- M.lift (getitem result (KStr "recommended_song")) ;;
    parts <- M.lift (split field ": ") ;;
    M.lift (last_item parts)).

Definition request_url (artist_name : string) : string :=
  api_url self ++ "?artist_name=" ++ artist_name.

(** Lines 281-285: the body of the [try]. *)
Definition run_try (artist_name : string) : M.t unit :=
  response <- http_get (request_url artist_name) ;;
  M.lift (Requests.raise_for_status response) ;;
  result <- M.lift (Requests.json response) ;;
  recommended_song <- M.lift (recommended_song_of result) ;;
  display_recommendation recommended_song artist_name.

(** [run]: [artist_name] is what the text input holds and [clicked] what
    [st.button] returns. *)
Definition run (artist_name : string) (clicked : bool) : M.t unit :=
  M.emit (Markdown Heading) ;;
  if clicked then
    if negb (truthy (PStr (PyStr.strip artist_name))) then
      M.emit (Warning "Please enter an artist name") ;;
      M.ret tt
    else
      M.try_except (run_try artist_name)
        [except is_RequestException as e =>
           M.emit (Error ("Recommendation service unavailable: " ++ exc_str e));
         except is_KeyError as _e =>
           M.emit (Error "Unexpected response format from API")]
  else M.ret tt.

End Program.

(** ** The specification's own notions

    Written after the words of the specification, to be compared with what
    the code computes. *)

Module Spec.

(** "Only the suffix after the last [sep] is kept": [after_last sep s] is
    what follows the rightmost occurrence of [sep] in [s], if there is
    one. *)
Fixpoint after_last (sep s : string) : option string :=
  match s with
  | EmptyString => Str.strip_prefix sep s
  | String _ s' =>
      match after_last sep s' with
      | Some r => Some r
      | None => Str.strip_prefix sep s
      end
  end.

Definition title_of (field : string) : string :=
  match after_last ": " field with
  | Some title => title
  | None => field
  end.

(** "Blank or whitespace-only": every character is a whitespace
    character. *)
Definition whitespace_only (s : string) : Prop :=
  Forall (fun c => In c PyStr.whitespace) (PyStr.utf8_chars s).

(** Percent-encoding as a URL scheme reads it, stated by byte codes and
    apart from the model of [urllib]: the unreserved bytes are the letters,
    the digits and [- . _ ~]; the escape of a byte is ["%"] and the two
    upper-case hexadecimal digits of its code. *)
Definition unreserved (a : ascii) : bool :=
  let n := Str.code a in
  ((65 <=? n) && (n <=? 90) || (97 <=? n) && (n <=? 122)
   || (48 <=? n) && (n <=? 57)
   || (n =? 45) || (n =? 46) || (n =? 95) || (n =? 126))%N.

Definition hexadecimal (d : N) : ascii :=
  if (d <? 10)%N then Str.byte (48 + d) else Str.byte (55 + d).

Definition percent (a : ascii) : string :=
  String "%"%char
    (String (hexadecimal (N.shiftr (Str.code a) 4))
       (String (hexadecimal (N.land (Str.code a) 15)) EmptyString)).

(** The two conventions: a space is written [space], a byte that [keep]
    accepts is written as it is, any other byte is escaped. *)
Definition encode (space : string) (keep : ascii -> bool) (s : string)
    : string :=
  Str.flat_map
    (fun a =>
       if Ascii.eqb a " "%char then space
       else if keep a then String a EmptyString
       else percent a) s.

Definition space_as_plus : string -> string := encode "+" unreserved.

Definition space_as_pct20 : string -> string :=
  encode "%20" (fun a => unreserved a || Ascii.eqb a "/"%char).

(** The four services, in the order of the table. *)
Definition services : list string :=
  ["Spotify Direct"; "YouTube Music"; "SoundCloud"; "Deezer"].

(** The keys of a metadata record. *)
Definition record_keys : list string :=
  ["preview_url"; "explicit"; "spotify_id"; "album_cover"; "release_date";
   "spotify_url"].

End Spec.

(** ** Sample worlds

    Catalog clients and recommendation services with fixed answers, on which
    the properties below are instantiated. *)

Module Sample.

Definition endpoint : string := "http://127.0.0.1:8000/recommend/".

(** A catalog whose every search returns the tracks [items]. *)
Definition catalog (items : value) : MusicRecommender :=
  mk_recommender endpoint
    (fun _ _ _ => Ok (PDict [("tracks", PDict [("items", items)])])).

(** A catalog whose every search fails. *)
Definition catalog_down : MusicRecommender :=
  mk_recommender endpoint
    (fun _ _ _ => Raise (mk_exc OtherException "Read timed out.")).

Definition track_url : string :=
  "https://open.spotify.com/track/7tFiyTwD0nx5a1eklYtX2J".

Definition album (entries : list (string * value)) : value :=
  PDict (entries ++ [("release_date", PStr "1975-10-31")])%list.

Definition track (id : value) (album : value) : value :=
  PDict [("id", id);
         ("explicit", PBool false);
         ("preview_url", PNone);
         ("album", album);
         ("external_urls", PDict [("spotify", PStr track_url)])].

Definition cover : string := "https://i.scdn.co/image/ab67".

Definition full_track : value :=
  track (PStr "7tFiyTwD0nx5a1eklYtX2J")
    (album [("images", PList [PDict [("url", PStr cover)]])]).

(** A recommendation service that answers 200 with the JSON object
    [body]. *)
Definition answers (body : list (string * value))
    : string -> result Requests.response :=
  fun url => Ok (Requests.mk_response 200 "OK" url (Ok (PDict body))).

(** A recommendation service that answers with the status [code]. *)
Definition refuses (code : Z) (reason : string)
    : string -> result Requests.response :=
  fun url => Ok (Requests.mk_response code reason url (Ok PNone)).

(** A recommendation service that cannot be reached. *)
Definition unreachable : string -> result Requests.response :=
  fun _ => Raise (mk_exc RequestException "Connection refused").

End Sample.

(** Number of requests sent to the recommendation service. *)
Definition http_requests (tr : list event) : nat :=
  List.length
    (filter (fun ev => match ev with HttpGet _ => true | _ => false end) tr).

(** What [None.get] raises. *)
Definition attribute_error_get : exc := no_attribute PNone "get".

(** Number of searches sent to the catalog, and the searches themselves. *)
Definition is_search (ev : event) : bool :=
  match ev with CatalogSearch _ _ _ => true | _ => false end.

Definition is_request (ev : event) : bool :=
  match ev with HttpGet _ => true | _ => false end.

(** ** Start-up: [__init__], [_init_spotify_client], [_configure_ui] and the
    script's last two lines *)

Module Startup.

(** A catalog client, by its [search] method. *)
Definition client : Type := string -> Z -> string -> result value.

(** What the script finds around it: [st.secrets[key]], the constructor
    [spotipy.Spotify(auth_manager=SpotifyClientCredentials(client_id,
    client_secret))] and [os.getenv]. *)
Record host : Type := mk_host {
  secrets : string -> result string;
  spotify : string -> string -> result client;
  getenv : string -> option string
}.

(** The four style sheets of [_configure_ui], by the method that writes
    each. *)
Inductive style : Type :=
| Background          (* [_set_background] *)
| Title               (* [_set_title] *)
| InputStyle          (* [_set_input_style] *)
| MainLayout.         (* [_set_main_layout] *)

Inductive event : Type :=
| Shown (ev : Page.event)
| Styled (s : style).

(** How a script run ends: [st.stop()] ends it at once, by a control
    exception that no clause of the program takes. *)
Inductive ending : Type :=
| Finished (r : result unit)
| Stopped.

(** Lines 18-23: the body of the [try]. *)
Definition connect (h : host) : result client :=
  M.outcome (
    client_id <- M.lift (secrets h "SPOTIPY_CLIENT_ID") ;;
    client_secret <- M.lift (secrets h "SPOTIPY_CLIENT_SECRET") ;;
    M.lift (spotify h client_id client_secret)).

(** [_init_spotify_client]: the client, or [None] where the method calls
    [st.stop()]. *)
Definition _init_spotify_client (h : host) : M.t (option client) :=
  M.try_except (sp <- M.lift (connect h) ;; M.ret (Some sp))
    [except is_KeyError as e =>
       (M.emit (Error ("Missing secret: " ++ exc_str e)) ;;
        M.ret None);
     except is_Exception as e =>
       (M.emit (Error ("Failed to initialize Spotify client: " ++ exc_str e)) ;;
        M.ret None)].

Definition _configure_ui : list style :=
  [Background; Title; InputStyle; MainLayout].

Definition default_api_url : string := "http://127.0.0.1:8000/recommend/".

(** [os.getenv(name, default)]. *)
Definition getenv_or (h : host) (name default : string) : string :=
  match getenv h name with
  | Some v => v
  | None => default
  end.

(** [__init__]: the object, or [None] when the script was stopped. *)
Definition __init__ (h : host) : list event * option MusicRecommender :=
  match _init_spotify_client h with
  | (tr, Ok (Some sp)) =>
      ((map Shown tr ++ map Styled _configure_ui)%list,
       Some (mk_recommender (getenv_or h "API_URL" default_api_url) sp))
  | (tr, _) => (map Shown tr, None)
  end.

(** Lines 293-295: [recommender = MusicRecommender()] and
    [recommender.run()]. *)
Definition main (requests_get : string -> result Requests.response)
    (h : host) (artist_name : string) (clicked : bool)
    : list event * ending :=
  match __init__ h with
  | (tr, Some recommender) =>
      let r := run requests_get recommender artist_name clicked in
      ((tr ++ map Shown (M.trace r))%list, Finished (M.outcome r))
  | (tr, None) => (tr, Stopped)
  end.

End Startup.

(** ** Decoding, to compare encoded texts

    [unquote] reads back what [quote] wrote: ["%XX"] is the byte of code
    [XX], any other byte is itself. *)

Definition unhex (a : ascii) : option N :=
  let n := Str.code a in
  if ((48 <=? n) && (n <=? 57))%N then Some (n - 48)%N
  else if ((65 <=? n) && (n <=? 70))%N then Some (n - 55)%N
  else if ((97 <=? n) && (n <=? 102))%N then Some (n - 87)%N
  else None.

Fixpoint unquote (s : string) : string :=
  match s with
  | EmptyString => EmptyString
  | String c s1 =>
      if Ascii.eqb c "%" then
        match s1 with
        | String h1 (String h2 s3) =>
            match unhex h1, unhex h2 with
            | Some x, Some y => String (Str.byte (16 * x + y)) (unquote s3)
            | _, _ => String c (unquote s1)
            end
        | _ => String c (unquote s1)
        end
      else String c (unquote s1)
  end.

(** [unquote_plus] first reads ["+"] as a space. *)
Definition unquote_plus (s : string) : string :=
  unquote (PyStr.replace1 "+" " " s).

(** The bytes an encoded text may hold. *)
Definition url_byte (extra : string) (a : ascii) : bool :=
  Str.mem a Urllib.always_safe || Str.mem a "%" || Str.mem a extra.

Fixpoint all_bytes (p : ascii -> bool) (s : string) : bool :=
  match s with
  | EmptyString => true
  | String a s' => p a && all_bytes p s'
  end.

(** * Properties *)

(** ** Sample runs of the string functions *)

Example split_top_pick :
  PyStr.split "Top Pick: Yesterday" ": " = ["Top Pick"; "Yesterday"].
Proof. reflexivity. Qed.

Example split_three :
  PyStr.split "A: B: C" ": " = ["A"; "B"; "C"].
Proof. reflexivity. Qed.

Example split_adjacent :
  PyStr.split "A: : B: " ": " = ["A"; ""; "B"; ""].
Proof. reflexivity. Qed.

Example strip_spaces : PyStr.strip "  The Beatles   " = "The Beatles".
Proof. reflexivity. Qed.

Example strip_nbsp :
  PyStr.strip (Str.of_codes [194; 160; 32; 9]%N) = "".
Proof. reflexivity. Qed.

Example split_ws_service :
  PyStr.split_ws "Spotify Direct" = ["Spotify"; "Direct"].
Proof. reflexivity. Qed.

Example quote_plus_sample :
  Urllib.quote_plus "a/b+c d~" = "a%2Fb%2Bc+d~".
Proof. reflexivity. Qed.

Example quote_sample : Urllib.quote "a/b+c d~" = "a/b%2Bc%20d~".
Proof. reflexivity. Qed.

(** ** Byte strings *)

Lemma append_nil_r (s : string) : s ++ "" = s.
Proof. induction s as [|a s IH]; simpl; [reflexivity | now rewrite IH]. Qed.

Lemma append_assoc (s1 s2 s3 : string) :
  (s1 ++ s2) ++ s3 = s1 ++ (s2 ++ s3).
Proof. induction s1 as [|a s1 IH]; simpl; [reflexivity | now rewrite IH]. Qed.

Lemma length_append (s1 s2 : string) :
  String.length (s1 ++ s2) = String.length s1 + String.length s2.
Proof. induction s1 as [|a s1 IH]; simpl; [reflexivity | now rewrite IH]. Qed.

Lemma strip_prefix_Some (p s r : string) :
  Str.strip_prefix p s = Some r -> s = p ++ r.
Proof.
  revert s; induction p as [|a p IH]; intros s H; simpl in *.
  - now inversion H.
  - destruct s as [|b s]; [discriminate|].
    destruct (Ascii.eqb_spec a b) as [->|]; [|discriminate].
    now rewrite (IH _ H).
Qed.

Lemma strip_prefix_append (p r : string) :
  Str.strip_prefix p (p ++ r) = Some r.
Proof.
  induction p as [|a p IH]; simpl; [reflexivity|].
  now rewrite Ascii.eqb_refl.
Qed.

Lemma flat_map_append (f : ascii -> string) (s1 s2 : string) :
  Str.flat_map f (s1 ++ s2) = Str.flat_map f s1 ++ Str.flat_map f s2.
Proof.
  induction s1 as [|a s1 IH]; simpl; [reflexivity|].
  now rewrite IH, append_assoc.
Qed.

Lemma flat_map_ext (f g : ascii -> string) (s : string) :
  (forall a, Str.mem a s = true -> f a = g a) ->
  Str.flat_map f s = Str.flat_map g s.
Proof.
  induction s as [|a s IH]; intros H; simpl; [reflexivity|].
  rewrite (H a), IH; [reflexivity | |].
  - intros b Hb. apply H. simpl. now rewrite Hb, orb_true_r.
  - simpl. now rewrite Ascii.eqb_refl.
Qed.

(** ** [split] and the last occurrence of the separator *)

Lemma partition_Some (sep s before rest : string) :
  PyStr.partition sep s = Some (before, rest) ->
  s = before ++ sep ++ rest.
Proof.
  revert before; induction s as [|a s IH]; intros before H.
  - simpl in H. destruct (Str.strip_prefix sep "") eqn:E; [|discriminate].
    inversion H; subst. now apply strip_prefix_Some in E.
  - simpl in H.
    destruct (Str.strip_prefix sep (String a s)) eqn:E.
    + inversion H; subst. now apply strip_prefix_Some in E.
    + destruct (PyStr.partition sep s) as [[b r]|] eqn:P; [|discriminate].
      inversion H; subst. simpl. now rewrite <- (IH _ eq_refl).
Qed.

Lemma partition_None (sep s : string) :
  PyStr.partition sep s = None -> Spec.after_last sep s = None.
Proof.
  induction s as [|a s IH]; intros H; simpl in *.
  - now destruct (Str.strip_prefix sep "").
  - destruct (Str.strip_prefix sep (String a s)) eqn:E; [discriminate|].
    destruct (PyStr.partition sep s) as [[b r]|]; [discriminate|].
    now rewrite IH.
Qed.

Lemma after_last_append (sep p s r : string) :
  Spec.after_last sep s = Some r -> Spec.after_last sep (p ++ s) = Some r.
Proof.
  intros H; induction p as [|a p IH]; simpl; [exact H | now rewrite IH].
Qed.

(** The separator [": "] cannot overlap itself: an occurrence that is
    followed by no other is the last one. *)
Lemma after_last_colon_space (p r : string) :
  Spec.after_last ": " r = None ->
  Spec.after_last ": " (p ++ ": " ++ r) = Some r.
Proof.
  intros H. apply after_last_append.
  change (": " ++ r) with (String ":" (String " " r)).
  cbn [Spec.after_last]. rewrite H.
  destruct r; reflexivity.
Qed.

Lemma seq_index_last {A} (x : A) (l : list A) :
  seq_index (l ++ [x])%list (-1) = Some x.
Proof.
  unfold seq_index. rewrite length_app. cbn [List.length].
  change (-1 <? 0)%Z with true. cbv iota.
  assert (E : (-1 + Z.of_nat (List.length l + 1) <? 0)%Z = false)
    by (apply Z.ltb_ge; lia).
  rewrite E.
  assert (N : Z.to_nat (-1 + Z.of_nat (List.length l + 1)) = List.length l)
    by lia.
  rewrite N, nth_error_app2, Nat.sub_diag by lia. reflexivity.
Qed.

Lemma last_item_cons (x y : string) (l : list string) :
  last_item (x :: y :: l) = last_item (y :: l).
Proof.
  destruct (exists_last (l := y :: l)) as [l' [z E]]; [discriminate|].
  unfold last_item. rewrite E.
  change (x :: (l' ++ [z]))%list with ((x :: l') ++ [z])%list.
  now rewrite !seq_index_last.
Qed.

Lemma last_item_single (x : string) : last_item [x] = Ok x.
Proof. reflexivity. Qed.

Lemma split_rounds_nonempty (n : nat) (sep s : string) :
  exists x l, PyStr.split_rounds n sep s = x :: l.
Proof.
  destruct n; simpl; [now eauto|].
  destruct (PyStr.partition sep s) as [[b r]|]; now eauto.
Qed.

(** The last piece of the split is what follows the last [": "], or the
    whole string when it holds none. *)
Lemma split_rounds_last (n : nat) (s : string) :
  String.length s <= n ->
  last_item (PyStr.split_rounds n ": " s) = Ok (Spec.title_of s).
Proof.
  revert s; induction n as [|n IH]; intros s Hn.
  - destruct s; [reflexivity | simpl in Hn; lia].
  - simpl. destruct (PyStr.partition ": " s) as [[b r]|] eqn:P.
    + pose proof (partition_Some _ _ P) as E.
      assert (Hr : String.length r <= n).
      { rewrite E, !length_append in Hn. simpl in Hn. lia. }
      destruct (split_rounds_nonempty n ": " r) as [x [l Hx]].
      specialize (IH r Hr). rewrite Hx in *. rewrite last_item_cons, IH.
      f_equal. unfold Spec.title_of. rewrite E.
      destruct (Spec.after_last ": " r) as [t|] eqn:A.
      * pose proof (after_last_append ": " (b ++ ": ") r A) as A'.
        rewrite append_assoc in A'. now rewrite A'.
      * now rewrite after_last_colon_space.
    + unfold Spec.title_of. now rewrite (partition_None _ _ P).
Qed.

Lemma split_last (s : string) :
  last_item (PyStr.split s ": ") = Ok (Spec.title_of s).
Proof. apply split_rounds_last. apply le_n. Qed.

(** Rounds beyond [length s] change nothing: the separator is not empty, so
    every cut shortens what is left. *)
Lemma split_rounds_enough (n : nat) (a : ascii) (sep s : string) :
  String.length s <= n ->
  PyStr.split_rounds n (String a sep) s
  = PyStr.split_rounds (String.length s) (String a sep) s.
Proof.
  remember (String.length s) as m eqn:Hm.
  revert n s Hm.
  induction m as [m IH] using (well_founded_induction lt_wf).
  intros n s Hm Hn.
  destruct n as [|n].
  - replace m with 0 by lia. reflexivity.
  - destruct m as [|m].
    + destruct s; [reflexivity | discriminate].
    + simpl.
      destruct (PyStr.partition (String a sep) s) as [[b r]|] eqn:P;
        [|reflexivity].
      pose proof (partition_Some _ _ P) as E.
      assert (Hr : String.length r < S m).
      { rewrite Hm, E, !length_append. simpl. lia. }
      f_equal.
      rewrite (IH (String.length r) Hr n r eq_refl) by lia.
      now rewrite (IH (String.length r) Hr m r eq_refl) by lia.
Qed.

(** ** The monad *)

Lemma bind_lift {A B} (r : result A) (f : A -> M.t B) :
  M.bind (M.lift r) f
  = match r with Ok a => f a | Raise e => ([], Raise e) end.
Proof.
  unfold M.bind, M.lift. destruct r as [a|e]; [|reflexivity].
  now destruct (f a).
Qed.

Lemma bind_emit {B} (ev : event) (f : unit -> M.t B) :
  M.bind (M.emit ev) f = (ev :: M.trace (f tt), M.outcome (f tt)).
Proof. unfold M.bind, M.emit. now destruct (f tt). Qed.

Lemma bind_ret {A B} (a : A) (f : A -> M.t B) : M.bind (M.ret a) f = f a.
Proof. unfold M.bind, M.ret. now destruct (f a). Qed.

Lemma outcome_lift {A} (r : result A) : M.outcome (M.lift r) = r.
Proof. reflexivity. Qed.


Lemma trace_bind {A B} (m : M.t A) (f : A -> M.t B) :
  M.trace (M.bind m f)
  = match M.outcome m with
    | Ok a => (M.trace m ++ M.trace (f a))%list
    | Raise _ => M.trace m
    end.
Proof.
  destruct m as [tr [a|e]]; simpl; [|reflexivity]. now destruct (f a).
Qed.

Lemma outcome_bind_Ok {A B} (m : M.t A) (f : A -> M.t B) (b : B) :
  M.outcome (M.bind m f) = Ok b ->
  exists a, M.outcome m = Ok a /\ M.outcome (f a) = Ok b.
Proof.
  destruct m as [tr [a|e]]; cbn; [|discriminate].
  intros H. exists a. split; [reflexivity|]. destruct (f a); exact H.
Qed.

Lemma outcome_bind_Raise {A B} (m : M.t A) (f : A -> M.t B) (e : exc) :
  M.outcome (M.bind m f) = Raise e ->
  M.outcome m = Raise e
  \/ exists a, M.outcome m = Ok a /\ M.outcome (f a) = Raise e.
Proof.
  destruct m as [tr [a|e']]; cbn; [|intros H; inversion H; now left].
  intros H. right. exists a. split; [reflexivity|]. destruct (f a); exact H.
Qed.

Lemma http_requests_app (tr1 tr2 : list event) :
  http_requests (tr1 ++ tr2) = http_requests tr1 + http_requests tr2.
Proof. unfold http_requests. now rewrite filter_app, length_app. Qed.

(** ** The catalog lookup *)

Lemma get_song_info_eq (self : MusicRecommender)
    (song_name artist_name : string) :
  let q := search_query song_name artist_name in
  get_song_info self song_name artist_name
  = match sp_search self q 1 "track" with
    | Ok results =>
        match match_record results with
        | Ok v => ([CatalogSearch q 1 "track"], Ok v)
        | Raise e =>
            ([CatalogSearch q 1 "track";
              Error ("Track lookup error: " ++ exc_str e)], Ok PNone)
        end
    | Raise e =>
        ([CatalogSearch q 1 "track";
          Error ("Track lookup error: " ++ exc_str e)], Ok PNone)
    end.
Proof.
  intros q. unfold get_song_info, get_song_info_try, search. fold q.
  rewrite bind_emit.
  destruct (sp_search self q 1 "track") as [results|e]; [|reflexivity].
  cbn. destruct (match_record results); reflexivity.
Qed.

Lemma track_record_Ok (track v : value) :
  track_record track = Ok v ->
  exists preview_url explicit spotify_id album_cover release_date spotify_url
         album external_urls,
    v = PDict [("preview_url", preview_url);
               ("explicit", explicit);
               ("spotify_id", spotify_id);
               ("album_cover", album_cover);
               ("release_date", release_date);
               ("spotify_url", spotify_url)]
    /\ get track "preview_url" PNone = Ok preview_url
    /\ get track "explicit" (PBool false) = Ok explicit
    /\ getitem track (KStr "id") = Ok spotify_id
    /\ getitem track (KStr "album") = Ok album
    /\ get album "release_date" (PStr "") = Ok release_date
    /\ getitem track (KStr "external_urls") = Ok external_urls
    /\ getitem external_urls (KStr "spotify") = Ok spotify_url.
Proof.
  unfold track_record. intros H.
  apply outcome_bind_Ok in H as (p & E1 & H).
  apply outcome_bind_Ok in H as (x & E2 & H).
  apply outcome_bind_Ok in H as (i & E3 & H).
  apply outcome_bind_Ok in H as (c & Ec & H).
  apply outcome_bind_Ok in H as (r & Er & H).
  apply outcome_bind_Ok in H as (u & Eu & H).
  apply outcome_bind_Ok in Ec as (album & E4 & _).
  apply outcome_bind_Ok in Er as (album' & E4' & E5).
  apply outcome_bind_Ok in Eu as (eu & E6 & E7).
  cbn in *. rewrite E4 in E4'. inversion E4'; subst album'.
  inversion H; subst v.
  now exists p, x, i, c, r, u, album, eu.
Qed.

Lemma match_record_Ok (results v : value) :
  match_record results = Ok v ->
  exists items,
    tracks_items results = Ok items
    /\ ((truthy items = false /\ v = PNone)
        \/ (truthy items = true
            /\ exists track,
                 getitem items (KInt 0) = Ok track
                 /\ track_record track = Ok v)).
Proof.
  unfold match_record. intros H.
  apply outcome_bind_Ok in H as (items & E1 & H). cbn in E1.
  exists items. split; [exact E1|].
  destruct (truthy items); cbn [negb] in H.
  - right. split; [reflexivity|].
    apply outcome_bind_Ok in H as (items' & E2 & H). cbn in E2.
    rewrite E1 in E2. inversion E2; subst items'.
    apply outcome_bind_Ok in H as (track & E3 & H). cbn in E3, H.
    now exists track.
  - left. split; [reflexivity|]. now inversion H.
Qed.

Lemma match_record_no_items (results items : value) :
  tracks_items results = Ok items ->
  truthy items = false ->
  match_record results = Ok PNone.
Proof.
  intros E1 E2. unfold match_record.
  now rewrite bind_lift, E1, E2.
Qed.

Lemma match_record_first (results items track : value) :
  tracks_items results = Ok items ->
  truthy items = true ->
  getitem items (KInt 0) = Ok track ->
  match_record results = track_record track.
Proof.
  intros E1 E2 E3. unfold match_record.
  rewrite bind_lift, E1, E2. cbn [negb].
  now rewrite !bind_lift, E3.
Qed.

Lemma get_dict (d : list (string * value)) (k : string) (default : value) :
  get (PDict d) k default
  = Ok (match assoc k d with Some x => x | None => default end).
Proof. unfold get. now destruct (assoc k d). Qed.

Lemma getitem_dict (d : list (string * value)) (k : string) (x : value) :
  assoc k d = Some x -> getitem (PDict d) (KStr k) = Ok x.
Proof. intros H. unfold getitem. now rewrite H. Qed.

Lemma getitem_dict_missing (d : list (string * value)) (k : string) :
  assoc k d = None -> getitem (PDict d) (KStr k) = Raise (key_error k).
Proof. intros H. unfold getitem. now rewrite H. Qed.

(** Evaluating a computation as far as its steps are known. *)
Ltac simp_m :=
  repeat (first [rewrite bind_lift | rewrite bind_ret | rewrite bind_emit
                | rewrite get_dict];
          cbv beta iota).

(** The record built from a match whose album has an [images] entry that
    is empty (or false in any other way). *)
Lemma track_record_no_images
    (d a : list (string * value)) (id images external_urls url : value) :
  assoc "id" d = Some id ->
  assoc "album" d = Some (PDict a) ->
  assoc "images" a = Some images ->
  truthy images = false ->
  assoc "external_urls" d = Some external_urls ->
  getitem external_urls (KStr "spotify") = Ok url ->
  track_record (PDict d)
  = Ok (PDict
      [("preview_url",
        match assoc "preview_url" d with Some x => x | None => PNone end);
       ("explicit",
        match assoc "explicit" d with Some x => x | None => PBool false end);
       ("spotify_id", id);
       ("album_cover", PNone);
       ("release_date",
        match assoc "release_date" a with Some x => x | None => PStr "" end);
       ("spotify_url", url)]).
Proof.
  intros Hid Halbum Himages Hfalse Heu Hurl. unfold track_record.
  apply getitem_dict in Hid, Halbum, Himages, Heu.
  repeat (simp_m;
          first [rewrite Hid | rewrite Halbum | rewrite Himages
                | rewrite Hfalse | rewrite Heu | rewrite Hurl]).
  reflexivity.
Qed.

(** What [get_song_info] returns: it never raises, it sends nothing to the
    recommendation service, and its result is [None] or a record with the
    six keys, made of the first match. *)
Lemma get_song_info_cases (self : MusicRecommender)
    (song_name artist_name : string) :
  exists tr v,
    get_song_info self song_name artist_name = (tr, Ok v)
    /\ http_requests tr = 0
    /\ (v = PNone
        \/ exists results items track preview_url explicit spotify_id
                  album_cover release_date spotify_url album external_urls,
             sp_search self (search_query song_name artist_name) 1 "track"
             = Ok results
             /\ tracks_items results = Ok items
             /\ truthy items = true
             /\ getitem items (KInt 0) = Ok track
             /\ v = PDict [("preview_url", preview_url);
                           ("explicit", explicit);
                           ("spotify_id", spotify_id);
                           ("album_cover", album_cover);
                           ("release_date", release_date);
                           ("spotify_url", spotify_url)]
             /\ getitem track (KStr "id") = Ok spotify_id
             /\ getitem track (KStr "album") = Ok album
             /\ getitem track (KStr "external_urls") = Ok external_urls
             /\ getitem external_urls (KStr "spotify") = Ok spotify_url).
Proof.
  pose proof (get_song_info_eq self song_name artist_name) as E.
  cbv zeta in E. rewrite E.
  destruct (sp_search self (search_query song_name artist_name) 1 "track")
    as [results|e] eqn:S.
  2: { eexists _, _. split; [reflexivity|]. split; [reflexivity | now left]. }
  destruct (match_record results) as [v|e] eqn:R.
  2: { eexists _, _. split; [reflexivity|]. split; [reflexivity | now left]. }
  eexists _, _. split; [reflexivity|]. split; [reflexivity|].
  apply match_record_Ok in R as (items & E1 & [[_ ->] | [T (track & E2 & R)]]);
    [now left|].
  right.
  apply track_record_Ok in R
    as (p & x & i & c & r & u & album & eu & -> & _ & _ & Hi & Ha & _ & He
        & Hu).
  now exists results, items, track, p, x, i, c, r, u, album, eu.
Qed.

(** C4.  When the catalog search returns zero matching tracks
    ([results['tracks']['items']] is the empty list), [get_song_info]
    returns [None], the marker of an absent result, and never a record; it
    reports nothing to the user on the way. *)
Theorem no_match_is_absent (self : MusicRecommender)
    (song_name artist_name : string) (results : value) :
  sp_search self (search_query song_name artist_name) 1 "track" = Ok results ->
  tracks_items results = Ok (PList []) ->
  get_song_info self song_name artist_name
  = ([CatalogSearch (search_query song_name artist_name) 1 "track"],
     Ok PNone).
Proof.
  intros S I.
  pose proof (get_song_info_eq self song_name artist_name) as E.
  cbv zeta in E. rewrite E, S.
  now rewrite (match_record_no_items results I).
Qed.

Lemma no_match_is_absent_witness :
  get_song_info (Sample.catalog (PList [])) "Yesterday" "The Beatles"
  = ([CatalogSearch (search_query "Yesterday" "The Beatles") 1 "track"],
     Ok PNone).
Proof.
  apply (no_match_is_absent (Sample.catalog (PList [])) "Yesterday"
           "The Beatles"
           (results := PDict [("tracks", PDict [("items", PList [])])]));
    reflexivity.
Defined.

(** C5.  Every failure raised during the catalog lookup is caught inside
    [get_song_info]: whatever the [try] block raises, a failure of the
    search call (transport) or of reading its results (parsing), the
    function reports "Track lookup error: ..." with [st.error] and returns
    [None], the result of a search without match; for no input does an
    exception leave the function. *)
Theorem lookup_failures_are_caught (self : MusicRecommender)
    (song_name artist_name : string) :
  (exists tr v, get_song_info self song_name artist_name = (tr, Ok v))
  /\ (forall tr e,
        get_song_info_try self song_name artist_name = (tr, Raise e) ->
        get_song_info self song_name artist_name
        = ((tr ++ [Error ("Track lookup error: " ++ exc_str e)])%list,
           Ok PNone))
  /\ (forall e,
        sp_search self (search_query song_name artist_name) 1 "track"
        = Raise e ->
        get_song_info self song_name artist_name
        = ([CatalogSearch (search_query song_name artist_name) 1 "track";
            Error ("Track lookup error: " ++ exc_str e)], Ok PNone))
  /\ (forall results e,
        sp_search self (search_query song_name artist_name) 1 "track"
        = Ok results ->
        match_record results = Raise e ->
        get_song_info self song_name artist_name
        = ([CatalogSearch (search_query song_name artist_name) 1 "track";
            Error ("Track lookup error: " ++ exc_str e)], Ok PNone)).
Proof.
  pose proof (get_song_info_eq self song_name artist_name) as E.
  cbv zeta in E.
  repeat split.
  - destruct (get_song_info_cases self song_name artist_name)
      as (tr & v & H & _). now exists tr, v.
  - intros tr e H. unfold get_song_info. now rewrite H.
  - intros e S. now rewrite E, S.
  - intros results e S R. now rewrite E, S, R.
Qed.

Lemma lookup_failures_are_caught_witness :
  get_song_info Sample.catalog_down "Yesterday" "The Beatles"
  = ([CatalogSearch (search_query "Yesterday" "The Beatles") 1 "track";
      Error "Track lookup error: Read timed out."], Ok PNone).
Proof.
  exact (proj1 (proj2 (proj2
    (lookup_failures_are_caught Sample.catalog_down "Yesterday"
       "The Beatles")))
    (mk_exc OtherException "Read timed out.") eq_refl).
Defined.

(** C6, as the code has it.  For every matched track that has its required
    fields and whose album carries an [images] entry that is empty (an empty
    list, or any other false value such as [null]), [get_song_info] returns
    a metadata record whose [album_cover] is [None] while the other five
    fields are populated from the match, and reports no error. *)
Theorem empty_images_give_no_cover (self : MusicRecommender)
    (song_name artist_name : string) (results items : value)
    (d a : list (string * value)) (id images external_urls url : value) :
  sp_search self (search_query song_name artist_name) 1 "track" = Ok results ->
  tracks_items results = Ok items ->
  truthy items = true ->
  getitem items (KInt 0) = Ok (PDict d) ->
  assoc "id" d = Some id ->
  assoc "album" d = Some (PDict a) ->
  assoc "images" a = Some images ->
  truthy images = false ->
  assoc "external_urls" d = Some external_urls ->
  getitem external_urls (KStr "spotify") = Ok url ->
  get_song_info self song_name artist_name
  = ([CatalogSearch (search_query song_name artist_name) 1 "track"],
     Ok (PDict
       [("preview_url",
         match assoc "preview_url" d with Some x => x | None => PNone end);
        ("explicit",
         match assoc "explicit" d with
         | Some x => x
         | None => PBool false
         end);
        ("spotify_id", id);
        ("album_cover", PNone);
        ("release_date",
         match assoc "release_date" a with
         | Some x => x
         | None => PStr ""
         end);
        ("spotify_url", url)])).
Proof.
  intros S I T F Hid Halbum Himages Hfalse Heu Hurl.
  pose proof (get_song_info_eq self song_name artist_name) as E.
  cbv zeta in E. rewrite E, S.
  rewrite (match_record_first results I T F).
  now rewrite (track_record_no_images d Hid Halbum Himages Hfalse Heu Hurl).
Qed.

Lemma empty_images_give_no_cover_witness :
  get_song_info
    (Sample.catalog
       (PList [Sample.track (PStr "7tFiyTwD0nx5a1eklYtX2J")
                 (Sample.album [("images", PList [])])]))
    "Bohemian Rhapsody" "Queen"
  = ([CatalogSearch (search_query "Bohemian Rhapsody" "Queen") 1 "track"],
     Ok (PDict
       [("preview_url", PNone);
        ("explicit", PBool false);
        ("spotify_id", PStr "7tFiyTwD0nx5a1eklYtX2J");
        ("album_cover", PNone);
        ("release_date", PStr "1975-10-31");
        ("spotify_url", PStr Sample.track_url)])).
Proof.
  exact (empty_images_give_no_cover
           (Sample.catalog
              (PList [Sample.track (PStr "7tFiyTwD0nx5a1eklYtX2J")
                        (Sample.album [("images", PList [])])]))
           "Bohemian Rhapsody" "Queen"
           (d := [("id", PStr "7tFiyTwD0nx5a1eklYtX2J");
                  ("explicit", PBool false);
                  ("preview_url", PNone);
                  ("album", Sample.album [("images", PList [])]);
                  ("external_urls",
                   PDict [("spotify", PStr Sample.track_url)])])
           (a := [("images", PList []);
                  ("release_date", PStr "1975-10-31")])
           eq_refl eq_refl eq_refl eq_refl eq_refl eq_refl eq_refl eq_refl
           eq_refl eq_refl).
Defined.

(** C6, as stated, fails: a matched track whose album has no [images] key
    at all makes [track['album']['images']] raise [KeyError]; the lookup
    reports an error and returns [None] instead of a record with an absent
    cover. *)
Lemma missing_images_key_is_an_error :
  get_song_info
    (Sample.catalog
       (PList [Sample.track (PStr "7tFiyTwD0nx5a1eklYtX2J")
                 (Sample.album [])]))
    "Bohemian Rhapsody" "Queen"
  = ([CatalogSearch (search_query "Bohemian Rhapsody" "Queen") 1 "track";
      Error "Track lookup error: 'images'"],
     Ok PNone).
Proof. reflexivity. Qed.

(** C10, as the code has it.  [get_song_info] is all-or-nothing: for every
    input it returns, without raising, either [None] or a record with
    exactly the six keys [preview_url], [explicit], [spotify_id],
    [album_cover], [release_date], [spotify_url].  In a returned record
    [spotify_id] and [spotify_url] are the values the first match holds
    under [id] and [external_urls.spotify] (so they are [None] only when the
    catalog itself sent [null] there), and the match has an [album]; if the
    match lacks [id], [album] or [external_urls.spotify], the whole result
    is [None]. *)
Theorem lookup_all_or_nothing (self : MusicRecommender)
    (song_name artist_name : string) :
  exists tr v,
    get_song_info self song_name artist_name = (tr, Ok v)
    /\ (v = PNone \/ exists d, v = PDict d /\ map fst d = Spec.record_keys)
    /\ forall results items track,
         sp_search self (search_query song_name artist_name) 1 "track"
         = Ok results ->
         tracks_items results = Ok items ->
         truthy items = true ->
         getitem items (KInt 0) = Ok track ->
         (v <> PNone ->
          getitem v (KStr "spotify_id") = getitem track (KStr "id")
          /\ (exists album, getitem track (KStr "album") = Ok album)
          /\ (exists external_urls,
                getitem track (KStr "external_urls") = Ok external_urls
                /\ getitem v (KStr "spotify_url")
                   = getitem external_urls (KStr "spotify")))
         /\ ((exists e, getitem track (KStr "id") = Raise e)
             \/ (exists e, getitem track (KStr "album") = Raise e)
             \/ (exists e, getitem track (KStr "external_urls") = Raise e)
             \/ (exists external_urls e,
                   getitem track (KStr "external_urls") = Ok external_urls
                   /\ getitem external_urls (KStr "spotify") = Raise e) ->
             v = PNone).
Proof.
  destruct (get_song_info_cases self song_name artist_name)
    as (tr & v & E & _ & C).
  exists tr, v. split; [exact E|].
  destruct C as [-> | (results & items & track & p & x & i & c & r & u & album
                       & eu & S & I & T & F & -> & Hi & Ha & He & Hu)].
  - split; [now left|]. intros results items track _ _ _ _.
    split; [now intros []|reflexivity].
  - split; [right; eexists; split; reflexivity|].
    intros results' items' track' S' I' T' F'.
    rewrite S in S'. inversion S'; subst results'.
    rewrite I in I'. inversion I'; subst items'.
    rewrite F in F'. inversion F'; subst track'.
    split.
    + intros _. rewrite Hi. split; [reflexivity|].
      split; [now exists album|]. exists eu. now rewrite Hu.
    + intros [[e H] | [[e H] | [[e H] | (eu' & e & H1 & H2)]]];
        congruence.
Qed.

Lemma lookup_all_or_nothing_witness :
  exists v,
    M.outcome
      (get_song_info (Sample.catalog (PList [Sample.full_track]))
         "Bohemian Rhapsody" "Queen") = Ok v
    /\ (v = PNone \/ exists d, v = PDict d /\ map fst d = Spec.record_keys).
Proof.
  destruct (lookup_all_or_nothing (Sample.catalog (PList [Sample.full_track]))
              "Bohemian Rhapsody" "Queen") as (tr & v & E & K & _).
  exists v. split; [now rewrite E | exact K].
Defined.

(** C10, as stated, fails: [track['id']] and
    [track['external_urls']['spotify']] only require the keys; when the
    catalog sends [null] under them the record is returned all the same,
    with [spotify_id] and [spotify_url] absent. *)
Lemma null_id_is_kept :
  get_song_info
    (Sample.catalog
       (PList [PDict [("id", PNone);
                      ("album", PDict [("images", PList [])]);
                      ("external_urls", PDict [("spotify", PNone)])]]))
    "Bohemian Rhapsody" "Queen"
  = ([CatalogSearch (search_query "Bohemian Rhapsody" "Queen") 1 "track"],
     Ok (PDict
       [("preview_url", PNone);
        ("explicit", PBool false);
        ("spotify_id", PNone);
        ("album_cover", PNone);
        ("release_date", PStr "");
        ("spotify_url", PNone)])).
Proof. reflexivity. Qed.

(** ** [strip] and whitespace-only strings *)

Lemma isspace_In (c : string) :
  PyStr.isspace c = true <-> In c PyStr.whitespace.
Proof.
  unfold PyStr.isspace. rewrite existsb_exists. split.
  - intros (w & Hw & E). apply String.eqb_eq in E. now subst.
  - intros H. exists c. split; [exact H | apply String.eqb_refl].
Qed.

Lemma dropwhile_nil {A} (p : A -> bool) (l : list A) :
  PyStr.dropwhile p l = [] <-> forallb p l = true.
Proof.
  induction l as [|x l IH]; simpl; [tauto|].
  destruct (p x); simpl; [exact IH|]. split; discriminate.
Qed.

Lemma dropwhile_idem {A} (p : A -> bool) (l : list A) :
  PyStr.dropwhile p (PyStr.dropwhile p l) = PyStr.dropwhile p l.
Proof.
  induction l as [|x l IH]; simpl; [reflexivity|].
  destruct (p x) eqn:E; [exact IH|]. simpl. now rewrite E.
Qed.

Lemma dropwhile_Forall {A} (P : A -> Prop) (p : A -> bool) (l : list A) :
  Forall P l -> Forall P (PyStr.dropwhile p l).
Proof.
  induction 1 as [|x l Hx Hl IH]; simpl; [constructor|].
  destruct (p x); [exact IH | now constructor].
Qed.

Lemma chars_from_nonempty (skip : nat) (s : string) :
  Forall (fun c => c <> "") (PyStr.chars_from skip s).
Proof.
  revert skip; induction s as [|a s IH]; intros skip; simpl; [constructor|].
  destruct skip; [|apply IH].
  constructor; [discriminate | apply IH].
Qed.

(** The characters cut from [s] make up [s]. *)
Lemma chars_from_join (skip : nat) (s : string) :
  PyStr.join (PyStr.chars_from skip s) = Str.drop skip s.
Proof.
  revert skip; induction s as [|a s IH]; intros skip.
  - now destruct skip.
  - destruct skip as [|k]; [|apply IH].
    cbn [PyStr.chars_from Str.drop].
    set (w := PyStr.char_width a - 1).
    specialize (IH w). unfold PyStr.join in *.
    assert (T : forall n t, Str.take n t ++ Str.drop n t = t).
    { induction n as [|n IHn]; intros [|b t]; simpl; try reflexivity.
      now rewrite IHn. }
    destruct (PyStr.chars_from w s) as [|c l] eqn:C.
    + simpl in *. rewrite <- (T w s) at 2. now rewrite <- IH, append_nil_r.
    + change (String.concat "" (String a (Str.take w s) :: c :: l))
        with (String a (Str.take w s) ++ "" ++ String.concat "" (c :: l)).
      rewrite IH. simpl. now rewrite T.
Qed.

Lemma utf8_chars_join (s : string) : PyStr.join (PyStr.utf8_chars s) = s.
Proof. apply (chars_from_join 0 s). Qed.

Lemma join_empty (l : list string) :
  Forall (fun c => c <> "") l -> PyStr.join l = "" -> l = [].
Proof.
  intros H E. destruct H as [|x l Hx Hl]; [reflexivity|].
  exfalso. unfold PyStr.join in E.
  destruct x as [|a x]; [now apply Hx|].
  destruct l; simpl in E; discriminate.
Qed.

Lemma strip_empty (s : string) :
  PyStr.strip s = "" <-> Spec.whitespace_only s.
Proof.
  unfold PyStr.strip, PyStr.rstrip_chars, PyStr.lstrip_chars,
    Spec.whitespace_only.
  set (l := PyStr.utf8_chars s).
  assert (W : Forall (fun c => In c PyStr.whitespace) l
              <-> forallb PyStr.isspace l = true).
  { rewrite forallb_forall, Forall_forall.
    split; intros H c Hc; apply isspace_In; now apply H. }
  rewrite W. split.
  - intros E. apply join_empty in E.
    + assert (R : PyStr.dropwhile PyStr.isspace
                    (rev (PyStr.dropwhile PyStr.isspace l)) = []).
      { rewrite <- (rev_involutive (PyStr.dropwhile _ (rev _))), E.
        reflexivity. }
      apply dropwhile_nil in R. rewrite forallb_forall in R.
      apply dropwhile_nil.
      destruct (PyStr.dropwhile PyStr.isspace l) as [|x l'] eqn:D;
        [reflexivity|].
      exfalso.
      assert (Hx : PyStr.isspace x = true).
      { apply R. rewrite <- in_rev. now left. }
      pose proof (dropwhile_idem PyStr.isspace l) as I.
      rewrite D in I. simpl in I. rewrite Hx in I.
      assert (L : List.length (PyStr.dropwhile PyStr.isspace l')
                  <= List.length l').
      { clear. induction l' as [|y l' IH]; simpl; [lia|].
        destruct (PyStr.isspace y); simpl; lia. }
      rewrite I in L. simpl in L. lia.
    + apply Forall_rev, dropwhile_Forall, Forall_rev, dropwhile_Forall.
      apply chars_from_nonempty.
  - intros H. apply dropwhile_nil in H. now rewrite H.
Qed.

Lemma strip_nonblank (s : string) :
  ~ Spec.whitespace_only s -> truthy (PStr (PyStr.strip s)) = true.
Proof.
  intros H. simpl. destruct (PyStr.strip s) eqn:E; [|reflexivity].
  now apply strip_empty in E.
Qed.

Lemma strip_blank (s : string) :
  Spec.whitespace_only s -> truthy (PStr (PyStr.strip s)) = false.
Proof. intros H. apply strip_empty in H. now rewrite H. Qed.

(** ** The display step *)

(** With no metadata, the keyword argument [caption] of [st.image] evaluates
    [track_info.get] on [None]: the display stops there. *)
Lemma display_recommendation_absent (self : MusicRecommender)
    (song_name artist_name : string) (tr : list event) :
  get_song_info self song_name artist_name = (tr, Ok PNone) ->
  display_recommendation self song_name artist_name
  = (Spinner "🔍 Deep searching across multiple sources..."
       :: tr ++ [Columns [1; 2]%Z],
     Raise attribute_error_get)%list.
Proof.
  intros E. unfold display_recommendation.
  rewrite bind_emit, E. reflexivity.
Qed.

Lemma display_recommendation_record (self : MusicRecommender)
    (song_name artist_name : string) (tr : list event)
    (preview_url explicit spotify_id album_cover release_date spotify_url
       : value) :
  let track_info :=
    PDict [("preview_url", preview_url);
           ("explicit", explicit);
           ("spotify_id", spotify_id);
           ("album_cover", album_cover);
           ("release_date", release_date);
           ("spotify_url", spotify_url)] in
  get_song_info self song_name artist_name = (tr, Ok track_info) ->
  display_recommendation self song_name artist_name
  = (Spinner "🔍 Deep searching across multiple sources..."
       :: tr
       ++ [Columns [1; 2]%Z;
           Image (or_else album_cover (PStr no_cover)) (PStr "");
           (if truthy preview_url then Audio preview_url "audio/mp3"
            else Markdown (SpotifyButton spotify_url));
           Markdown
             (TrackCard song_name artist_name
                (if truthy explicit then "⚠️ Explicit Content" else ""))],
     Ok tt)%list.
Proof.
  intros track_info E. unfold display_recommendation.
  rewrite bind_emit, E. subst track_info.
  destruct (truthy preview_url) eqn:P, (truthy explicit) eqn:X;
    cbn; rewrite ?P, ?X; reflexivity.
Qed.

Lemma display_recommendation_cases (self : MusicRecommender)
    (song_name artist_name : string) :
  http_requests (M.trace (display_recommendation self song_name artist_name))
  = 0
  /\ (M.outcome (display_recommendation self song_name artist_name) = Ok tt
      \/ M.outcome (display_recommendation self song_name artist_name)
         = Raise attribute_error_get).
Proof.
  destruct (get_song_info_cases self song_name artist_name)
    as (tr & v & E & N & C).
  destruct C as [-> | (_ & _ & _ & p & x & i & c & r & u & _ & _ & _ & _ & _
                       & _ & -> & _)].
  - rewrite (display_recommendation_absent _ _ _ E). split; [|now right].
    cbn [M.trace fst].
    change (Spinner ?s :: ?l)%list with ([Spinner s] ++ l)%list.
    now rewrite !http_requests_app, N.
  - rewrite (display_recommendation_record _ _ _ E). split; [|now left].
    cbn [M.trace fst].
    change (Spinner ?s :: ?l)%list with ([Spinner s] ++ l)%list.
    rewrite !http_requests_app, N.
    now destruct (truthy p).
Qed.

(** ** The recommendation request *)

Lemma run_try_eq (net : string -> result Requests.response)
    (self : MusicRecommender) (artist_name : string) :
  run_try net self artist_name
  = let url := request_url self artist_name in
    match net url with
    | Raise e => ([HttpGet url], Raise e)
    | Ok response =>
        match Requests.raise_for_status response with
        | Raise e => ([HttpGet url], Raise e)
        | Ok _ =>
            match Requests.json response with
            | Raise e => ([HttpGet url], Raise e)
            | Ok result =>
                match recommended_song_of result with
                | Raise e => ([HttpGet url], Raise e)
                | Ok recommended_song =>
                    let shown :=
                      display_recommendation self recommended_song
                        artist_name in
                    (HttpGet url :: M.trace shown, M.outcome shown)
                end
            end
        end
    end.
Proof.
  unfold run_try, http_get, M.bind, M.emit, M.lift. cbv zeta.
  destruct (net (request_url self artist_name)) as [response|e];
    [|reflexivity].
  destruct (Requests.raise_for_status response) as [[]|e]; [|reflexivity].
  destruct (Requests.json response) as [result|e]; [|reflexivity].
  destruct (recommended_song_of result) as [song|e]; [|reflexivity].
  now destruct (display_recommendation self song artist_name).
Qed.

(** Once the button is clicked with a name that is not blank, [run] is its
    heading followed by the guarded request. *)
Lemma run_nonblank (net : string -> result Requests.response)
    (self : MusicRecommender) (artist_name : string) :
  ~ Spec.whitespace_only artist_name ->
  run net self artist_name true
  = let guarded :=
      M.try_except (run_try net self artist_name)
        [(is_RequestException,
          fun e =>
            M.emit
              (Error ("Recommendation service unavailable: " ++ exc_str e)));
         (is_KeyError,
          fun _ => M.emit (Error "Unexpected response format from API"))] in
    (Markdown Heading :: M.trace guarded, M.outcome guarded).
Proof.
  intros H. unfold run. rewrite bind_emit.
  now rewrite (strip_nonblank H).
Qed.


Lemma recommended_song_of_string (d : list (string * value)) (s : string) :
  assoc "recommended_song" d = Some (PStr s) ->
  recommended_song_of (PDict d) = Ok (Spec.title_of s).
Proof.
  intros H. unfold recommended_song_of.
  rewrite bind_lift, (getitem_dict _ _ H), bind_lift.
  cbn [split]. rewrite outcome_lift. apply split_last.
Qed.


(** What follows the last occurrence of a separator holds no occurrence,
    and the separator stands right before it. *)
Lemma after_last_Some (a : ascii) (sep s r : string) :
  Spec.after_last (String a sep) s = Some r ->
  (exists p, s = p ++ String a sep ++ r)
  /\ Spec.after_last (String a sep) r = None.
Proof.
  assert (N : forall p t,
            Spec.after_last (String a sep) (p ++ t) = None ->
            Spec.after_last (String a sep) t = None).
  { intros p t H. destruct (Spec.after_last (String a sep) t) eqn:E;
      [|reflexivity].
    now rewrite (after_last_append _ p _ E) in H. }
  induction s as [|b s IH]; intros H; [discriminate H|].
  cbn [Spec.after_last] in H.
  destruct (Spec.after_last (String a sep) s) as [r'|] eqn:E.
  - inversion H; subst r'. destruct (IH eq_refl) as [[p Hp] Hr].
    split; [|exact Hr]. exists (String b p). simpl. now rewrite Hp.
  - pose proof (strip_prefix_Some _ _ H) as P. split.
    + now exists "".
    + simpl in P. inversion P; subst. now apply (N sep).
Qed.

(** The two [except] clauses of [run], applied to a finished [try]. *)
Lemma guarded_eq (tr : list event) (r : result unit) :
  M.try_except (tr, r)
    [(is_RequestException,
      fun e =>
        M.emit (Error ("Recommendation service unavailable: " ++ exc_str e)));
     (is_KeyError,
      fun _ => M.emit (Error "Unexpected response format from API"))]
  = match r with
    | Ok _ => (tr, r)
    | Raise e =>
        if is_RequestException e
        then ((tr ++ [Error ("Recommendation service unavailable: "
                              ++ exc_str e)])%list, Ok tt)
        else if is_KeyError e
        then ((tr ++ [Error "Unexpected response format from API"])%list,
              Ok tt)
        else (tr, r)
    end.
Proof.
  destruct r as [[]|e]; [reflexivity|]. cbn.
  destruct (is_RequestException e); [reflexivity|].
  destruct (is_KeyError e); reflexivity.
Qed.



(** C9.  For every blank or whitespace-only artist name, a click on the
    button sends no request to the recommendation service (nor to the
    catalog): [run] shows the warning "Please enter an artist name" and
    returns. *)
Theorem blank_name_sends_nothing (net : string -> result Requests.response)
    (self : MusicRecommender) (artist_name : string) :
  Spec.whitespace_only artist_name ->
  run net self artist_name true
  = ([Markdown Heading; Warning "Please enter an artist name"], Ok tt)
  /\ http_requests (M.trace (run net self artist_name true)) = 0.
Proof.
  intros H.
  assert (E : run net self artist_name true
              = ([Markdown Heading; Warning "Please enter an artist name"],
                 Ok tt)).
  { unfold run. rewrite bind_emit. now rewrite (strip_blank H). }
  split; [exact E | now rewrite E].
Qed.

Lemma blank_name_sends_nothing_witness :
  run (Sample.answers [("recommended_song", PStr "Top Pick: Yesterday")])
    (Sample.catalog (PList [Sample.full_track]))
    (Str.of_codes [32; 9; 194; 160; 226; 128; 131]%N) true
  = ([Markdown Heading; Warning "Please enter an artist name"], Ok tt)
  /\ http_requests
       (M.trace
          (run
             (Sample.answers
                [("recommended_song", PStr "Top Pick: Yesterday")])
             (Sample.catalog (PList [Sample.full_track]))
             (Str.of_codes [32; 9; 194; 160; 226; 128; 131]%N) true))
     = 0.
Proof.
  apply blank_name_sends_nothing.
  apply strip_empty. reflexivity.
Defined.

(** C1.  For every recommendation payload whose [recommended_song] field is
    a string, the extracted title is the last piece of that string split on
    [": "], which is what follows the last occurrence of [": "] (the whole
    string when there is none): the title holds no [": "], and the field is
    the title itself or ends with [": "] and the title.  For the field
    "Top Pick: Yesterday" the title is "Yesterday", for "A: B: C" it is
    "C". *)
Theorem title_is_last_segment (d : list (string * value)) (s : string) :
  assoc "recommended_song" d = Some (PStr s) ->
  recommended_song_of (PDict d) = Ok (Spec.title_of s)
  /\ last_item (PyStr.split s ": ") = Ok (Spec.title_of s)
  /\ Spec.after_last ": " (Spec.title_of s) = None
  /\ (s = Spec.title_of s \/ exists p, s = p ++ ": " ++ Spec.title_of s)
  /\ recommended_song_of
       (PDict [("recommended_song", PStr "Top Pick: Yesterday")])
     = Ok "Yesterday"
  /\ recommended_song_of (PDict [("recommended_song", PStr "A: B: C")])
     = Ok "C".
Proof.
  intros H.
  split; [now apply recommended_song_of_string|].
  split; [apply split_last|].
  assert (T : Spec.after_last ": " (Spec.title_of s) = None
              /\ (s = Spec.title_of s
                  \/ exists p, s = p ++ ": " ++ Spec.title_of s)).
  { unfold Spec.title_of.
    destruct (Spec.after_last ": " s) as [r|] eqn:E.
    - destruct (after_last_Some _ _ _ E) as [[p Hp] Hr].
      split; [exact Hr | right; now exists p].
    - split; [exact E | now left]. }
  destruct T as [T1 T2].
  repeat split; [exact T1 | exact T2].
Qed.

Lemma title_is_last_segment_witness :
  recommended_song_of
    (PDict [("artist", PStr "The Beatles");
            ("recommended_song", PStr "Top Pick: Today: Yesterday")])
  = Ok "Yesterday".
Proof.
  exact (proj1
    (title_is_last_segment
       [("artist", PStr "The Beatles");
        ("recommended_song", PStr "Top Pick: Today: Yesterday")]
       (s := "Top Pick: Today: Yesterday") eq_refl)).
Defined.







(** A search without match stops the display: the [AttributeError] raised by
    [track_info.get] on [None] is taken by neither [except] clause of [run]
    and leaves it. *)
Lemma no_match_stops_the_display :
  run (Sample.answers [("recommended_song", PStr "Top Pick: Yesterday")])
    (Sample.catalog (PList [])) "The Beatles" true
  = ([Markdown Heading;
      HttpGet "http://127.0.0.1:8000/recommend/?artist_name=The Beatles";
      Spinner "🔍 Deep searching across multiple sources...";
      CatalogSearch (search_query "Yesterday" "The Beatles") 1 "track";
      Columns [1; 2]%Z],
     Raise attribute_error_get).
Proof. reflexivity. Qed.

(** The end-to-end run of the specification: for the artist "Queen" and
    the answer "Pick: Bohemian Rhapsody", the catalog is searched for the
    title "Bohemian Rhapsody" by "Queen" and the track is displayed. *)
Example end_to_end_queen :
  run (Sample.answers [("recommended_song", PStr "Pick: Bohemian Rhapsody")])
    (Sample.catalog (PList [Sample.full_track])) "Queen" true
  = ([Markdown Heading;
      HttpGet "http://127.0.0.1:8000/recommend/?artist_name=Queen";
      Spinner "🔍 Deep searching across multiple sources...";
      CatalogSearch (search_query "Bohemian Rhapsody" "Queen") 1 "track";
      Columns [1; 2]%Z;
      Image (PStr Sample.cover) (PStr "");
      Markdown (SpotifyButton (PStr Sample.track_url));
      Markdown (TrackCard "Bohemian Rhapsody" "Queen" "")], Ok tt).
Proof. reflexivity. Qed.

Example service_unreachable :
  run Sample.unreachable (Sample.catalog (PList [Sample.full_track]))
    "Queen" true
  = ([Markdown Heading;
      HttpGet "http://127.0.0.1:8000/recommend/?artist_name=Queen";
      Error "Recommendation service unavailable: Connection refused"],
     Ok tt).
Proof. reflexivity. Qed.

Example service_refuses :
  run (Sample.refuses 503 "Service Unavailable")
    (Sample.catalog (PList [Sample.full_track])) "Queen" true
  = ([Markdown Heading;
      HttpGet "http://127.0.0.1:8000/recommend/?artist_name=Queen";
      Error
        ("Recommendation service unavailable: 503 Server Error: "
           ++ "Service Unavailable for url: "
           ++ "http://127.0.0.1:8000/recommend/?artist_name=Queen")],
     Ok tt).
Proof. reflexivity. Qed.

(** ** Percent-encoding *)

Ltac each_byte a := destruct a as [[] [] [] [] [] [] [] []].

Lemma mem_append (c : ascii) (s1 s2 : string) :
  Str.mem c (s1 ++ s2) = Str.mem c s1 || Str.mem c s2.
Proof.
  induction s1 as [|a s1 IH]; simpl; [reflexivity|].
  now rewrite IH, orb_assoc.
Qed.

Lemma mem_flat_map (c : ascii) (f : ascii -> string) (s : string) :
  (forall a, Str.mem c (f a) = false) -> Str.mem c (Str.flat_map f s) = false.
Proof.
  intros H. induction s as [|a s IH]; simpl; [reflexivity|].
  now rewrite mem_append, H, IH.
Qed.

Lemma flat_map_flat_map (f g : ascii -> string) (s : string) :
  Str.flat_map g (Str.flat_map f s)
  = Str.flat_map (fun a => Str.flat_map g (f a)) s.
Proof.
  induction s as [|a s IH]; simpl; [reflexivity|].
  now rewrite flat_map_append, IH.
Qed.

Lemma quote_byte_slash (a : ascii) :
  Urllib.quote_byte "/" a
  = if Ascii.eqb a " " then "%20"
    else if Spec.unreserved a || Ascii.eqb a "/"
    then String a EmptyString
    else Spec.percent a.
Proof. each_byte a; reflexivity. Qed.

Lemma quote_byte_space (a : ascii) :
  PyStr.replace1 " " "+" (Urllib.quote_byte " " a)
  = if Ascii.eqb a " " then "+"
    else if Spec.unreserved a then String a EmptyString
    else Spec.percent a.
Proof. each_byte a; reflexivity. Qed.

Lemma quote_byte_none (a : ascii) :
  Ascii.eqb a " " = false ->
  Urllib.quote_byte "" a
  = if Ascii.eqb a " " then "+"
    else if Spec.unreserved a then String a EmptyString
    else Spec.percent a.
Proof. each_byte a; intros H; try reflexivity; discriminate H. Qed.

Lemma quote_is_space_as_pct20 (s : string) :
  Urllib.quote s = Spec.space_as_pct20 s.
Proof.
  unfold Urllib.quote, Urllib.quote_with, Spec.space_as_pct20, Spec.encode.
  apply flat_map_ext. intros a _. apply quote_byte_slash.
Qed.

Lemma quote_plus_is_space_as_plus (s : string) :
  Urllib.quote_plus s = Spec.space_as_plus s.
Proof.
  unfold Urllib.quote_plus, Urllib.quote_with, Spec.space_as_plus,
    Spec.encode.
  destruct (Str.mem " " s) eqn:M.
  - unfold PyStr.replace1 at 1. rewrite flat_map_flat_map.
    apply flat_map_ext. intros a _. apply quote_byte_space.
  - apply flat_map_ext. intros a Ha. apply quote_byte_none.
    destruct (Ascii.eqb_spec a " ") as [->|]; [|reflexivity].
    now rewrite M in Ha.
Qed.

Lemma encode_words (space : string) (keep : ascii -> bool) (s1 s2 : string) :
  Spec.encode space keep (s1 ++ " " ++ s2)
  = Spec.encode space keep s1 ++ space ++ Spec.encode space keep s2.
Proof. unfold Spec.encode. now rewrite flat_map_append. Qed.

Lemma space_as_plus_no_space (s : string) :
  Str.mem " " (Spec.space_as_plus s) = false.
Proof. apply mem_flat_map. intros a. each_byte a; reflexivity. Qed.

Lemma space_as_pct20_no_space (s : string) :
  Str.mem " " (Spec.space_as_pct20 s) = false.
Proof. apply mem_flat_map. intros a. each_byte a; reflexivity. Qed.

(** Decoding reads an encoded text back. *)
Lemma unquote_flat_map (f : ascii -> string) (s : string) :
  (forall a rest, unquote (f a ++ rest) = String a (unquote rest)) ->
  unquote (Str.flat_map f s) = s.
Proof.
  intros H. induction s as [|a s IH]; simpl; [reflexivity|].
  now rewrite H, IH.
Qed.

Lemma unquote_quote (s : string) : unquote (Urllib.quote s) = s.
Proof.
  apply unquote_flat_map. intros a rest. each_byte a; reflexivity.
Qed.

Lemma unquote_plus_quote_plus (s : string) :
  unquote_plus (Urllib.quote_plus s) = s.
Proof.
  rewrite quote_plus_is_space_as_plus.
  unfold unquote_plus, PyStr.replace1, Spec.space_as_plus, Spec.encode.
  rewrite flat_map_flat_map.
  apply unquote_flat_map. intros a rest. each_byte a; reflexivity.
Qed.

Lemma unquote_space_as_pct20 (s : string) :
  unquote (Spec.space_as_pct20 s) = s.
Proof. rewrite <- quote_is_space_as_pct20. apply unquote_quote. Qed.

Lemma unquote_plus_space_as_plus (s : string) :
  unquote_plus (Spec.space_as_plus s) = s.
Proof.
  rewrite <- quote_plus_is_space_as_plus. apply unquote_plus_quote_plus.
Qed.

(** ** The alternate links *)

(** C7, as the code has it.  For every song title, artist name and optional
    catalog id, the link table has exactly four entries, in the order
    Spotify Direct, YouTube Music, SoundCloud, Deezer, and
    [_show_alternatives] renders one link for each, in that order.  The
    Spotify entry is [https://open.spotify.com/track/<id>] when the catalog
    id is present and not empty, and the catalog search URL over the text
    "<title> <artist>" when the id is absent or empty.  For "Yesterday",
    "The Beatles" and no id the entry is a search URL; with the id
    "abc123" it is [https://open.spotify.com/track/abc123]. *)
Theorem four_links_in_order (song_name artist_name : string)
    (spotify_id : option string) :
  let base_query := song_name ++ " " ++ artist_name in
  let primary :=
    match spotify_id with
    | Some (String a id) => "https://open.spotify.com/track/" ++ String a id
    | Some EmptyString | None =>
        "https://open.spotify.com/search/" ++ Urllib.quote base_query
    end in
  let youtube :=
    "https://music.youtube.com/search?q=" ++ Urllib.quote_plus base_query in
  let soundcloud :=
    "https://soundcloud.com/search?q=" ++ Urllib.quote_plus base_query in
  let deezer :=
    "https://www.deezer.com/search/" ++ Urllib.quote base_query in
  alternative_urls song_name artist_name spotify_id
  = [("Spotify Direct", primary); ("YouTube Music", youtube);
     ("SoundCloud", soundcloud); ("Deezer", deezer)]
  /\ map fst (alternative_urls song_name artist_name spotify_id)
     = Spec.services
  /\ _show_alternatives song_name artist_name spotify_id
     = ([Expander "🔊 Alternative Listening Options" true;
         Markdown ServiceStyle;
         Markdown (ServiceLink primary "Spotify Direct" "Spotify");
         Markdown (ServiceLink youtube "YouTube Music" "YouTube");
         Markdown (ServiceLink soundcloud "SoundCloud" "SoundCloud");
         Markdown (ServiceLink deezer "Deezer" "Deezer")], Ok tt)
  /\ assoc "Spotify Direct"
       (alternative_urls "Yesterday" "The Beatles" None)
     = Some "https://open.spotify.com/search/Yesterday%20The%20Beatles"
  /\ assoc "Spotify Direct"
       (alternative_urls "Yesterday" "The Beatles" (Some "abc123"))
     = Some "https://open.spotify.com/track/abc123".
Proof.
  cbv zeta.
  assert (E : alternative_urls song_name artist_name spotify_id
              = [("Spotify Direct",
                  match spotify_id with
                  | Some (String a id) =>
                      "https://open.spotify.com/track/" ++ String a id
                  | _ =>
                      "https://open.spotify.com/search/"
                        ++ Urllib.quote (song_name ++ " " ++ artist_name)
                  end);
                 ("YouTube Music",
                  "https://music.youtube.com/search?q="
                    ++ Urllib.quote_plus (song_name ++ " " ++ artist_name));
                 ("SoundCloud",
                  "https://soundcloud.com/search?q="
                    ++ Urllib.quote_plus (song_name ++ " " ++ artist_name));
                 ("Deezer",
                  "https://www.deezer.com/search/"
                    ++ Urllib.quote (song_name ++ " " ++ artist_name))]).
  { unfold alternative_urls. destruct spotify_id as [[|a id]|]; reflexivity. }
  split; [exact E|].
  split; [now rewrite E|].
  split; [|split; reflexivity].
  unfold _show_alternatives. cbv zeta. rewrite E. reflexivity.
Qed.

(** C7, as stated, fails: the guard is [if spotify_id], so an id that is
    present but empty gives the search URL, not
    [https://open.spotify.com/track/] followed by the id. *)
Lemma empty_id_gives_search_url :
  assoc "Spotify Direct"
    (alternative_urls "Yesterday" "The Beatles" (Some ""))
  = Some "https://open.spotify.com/search/Yesterday%20The%20Beatles"
  /\ "https://open.spotify.com/search/Yesterday%20The%20Beatles"
     <> "https://open.spotify.com/track/" ++ "".
Proof. split; [reflexivity | discriminate]. Qed.

(** C8.  In every URL of the link table the text "<title> <artist>" is
    percent-encoded with the convention of its destination, for every
    input: the YouTube Music and SoundCloud search URLs write a space as
    ["+"] ([quote_plus]), the Deezer URL and the Spotify search URL (the
    Spotify entry when the id is absent or empty) write it as ["%20"]
    ([quote]).  Each convention is the one stated in [Spec], apart from the
    model of [urllib]: unreserved bytes kept, every other byte written as
    ["%"] and two upper-case hexadecimal digits.  So the space between title
    and artist becomes ["+"] in the former and ["%20"] in the latter, no URL
    keeps a raw space of the text, and decoding each convention gives the
    text back. *)
Theorem links_keep_their_encoding (song_name artist_name : string)
    (spotify_id : option string) :
  let text := song_name ++ " " ++ artist_name in
  In ("YouTube Music",
      "https://music.youtube.com/search?q=" ++ Spec.space_as_plus text)
    (alternative_urls song_name artist_name spotify_id)
  /\ In ("SoundCloud",
         "https://soundcloud.com/search?q=" ++ Spec.space_as_plus text)
       (alternative_urls song_name artist_name spotify_id)
  /\ In ("Deezer",
         "https://www.deezer.com/search/" ++ Spec.space_as_pct20 text)
       (alternative_urls song_name artist_name spotify_id)
  /\ In ("Spotify Direct",
         "https://open.spotify.com/search/" ++ Spec.space_as_pct20 text)
       (alternative_urls song_name artist_name None)
  /\ In ("Spotify Direct",
         "https://open.spotify.com/search/" ++ Spec.space_as_pct20 text)
       (alternative_urls song_name artist_name (Some ""))
  /\ Spec.space_as_plus text
     = Spec.space_as_plus song_name ++ "+" ++ Spec.space_as_plus artist_name
  /\ Spec.space_as_pct20 text
     = Spec.space_as_pct20 song_name ++ "%20"
         ++ Spec.space_as_pct20 artist_name
  /\ Str.mem " " (Spec.space_as_plus text) = false
  /\ Str.mem " " (Spec.space_as_pct20 text) = false
  /\ unquote_plus (Spec.space_as_plus text) = text
  /\ unquote (Spec.space_as_pct20 text) = text.
Proof.
  cbv zeta. unfold alternative_urls. cbn [truthy Str.is_empty negb].
  rewrite quote_plus_is_space_as_plus, !quote_is_space_as_pct20.
  repeat split.
  - right; left; reflexivity.
  - right; right; left; reflexivity.
  - right; right; right; left; reflexivity.
  - left; reflexivity.
  - left; reflexivity.
  - apply encode_words.
  - apply encode_words.
  - apply space_as_plus_no_space.
  - apply space_as_pct20_no_space.
  - apply unquote_plus_space_as_plus.
  - apply unquote_space_as_pct20.
Qed.

(** * Further properties of the code *)

(** ** The catalog lookup, case by case *)


Lemma get_song_info_first (self : MusicRecommender)
    (song_name artist_name : string) (results items track : value) :
  sp_search self (search_query song_name artist_name) 1 "track" = Ok results ->
  tracks_items results = Ok items ->
  truthy items = true ->
  getitem items (KInt 0) = Ok track ->
  get_song_info self song_name artist_name
  = match track_record track with
    | Ok v => ([CatalogSearch (search_query song_name artist_name) 1 "track"],
               Ok v)
    | Raise e =>
        ([CatalogSearch (search_query song_name artist_name) 1 "track";
          Error ("Track lookup error: " ++ exc_str e)], Ok PNone)
    end.
Proof.
  intros S I T F.
  pose proof (get_song_info_eq self song_name artist_name) as E.
  cbv zeta in E. rewrite E, S.
  now rewrite (match_record_first results I T F).
Qed.

(** X2.  For a match that has its fields, the record is made of the first
    track only: [spotify_id] and [spotify_url] are its [id] and
    [external_urls.spotify], [album_cover] is the [url] of the first image
    of its album, and each optional field that the track lacks takes its
    default: [None] for [preview_url], [False] for [explicit], the empty
    string for [release_date].  No error is reported. *)
Theorem found_track_record (self : MusicRecommender)
    (song_name artist_name : string) (results items : value)
    (d a : list (string * value)) (more : list value)
    (id image cover external_urls url : value) :
  sp_search self (search_query song_name artist_name) 1 "track" = Ok results ->
  tracks_items results = Ok items ->
  truthy items = true ->
  getitem items (KInt 0) = Ok (PDict d) ->
  assoc "id" d = Some id ->
  assoc "album" d = Some (PDict a) ->
  assoc "images" a = Some (PList (image :: more)) ->
  getitem image (KStr "url") = Ok cover ->
  assoc "external_urls" d = Some external_urls ->
  getitem external_urls (KStr "spotify") = Ok url ->
  get_song_info self song_name artist_name
  = ([CatalogSearch (search_query song_name artist_name) 1 "track"],
     Ok (PDict
       [("preview_url",
         match assoc "preview_url" d with Some x => x | None => PNone end);
        ("explicit",
         match assoc "explicit" d with
         | Some x => x
         | None => PBool false
         end);
        ("spotify_id", id);
        ("album_cover", cover);
        ("release_date",
         match assoc "release_date" a with
         | Some x => x
         | None => PStr ""
         end);
        ("spotify_url", url)])).
Proof.
  intros S I T F Hid Halbum Himages Hcover Heu Hurl.
  rewrite (get_song_info_first _ _ _ S I T F).
  apply getitem_dict in Hid, Halbum, Himages, Heu.
  assert (H0 : getitem (PList (image :: more)) (KInt 0) = Ok image)
    by reflexivity.
  assert (Ht : truthy (PList (image :: more)) = true) by reflexivity.
  unfold track_record.
  repeat (simp_m;
          first [rewrite Hid | rewrite Halbum | rewrite Himages
                | rewrite Ht | rewrite H0 | rewrite Hcover | rewrite Heu
                | rewrite Hurl]).
  reflexivity.
Qed.

Lemma found_track_record_witness :
  get_song_info
    (Sample.catalog
       (PList [PDict [("id", PStr "7tFiyTwD0nx5a1eklYtX2J");
                      ("album",
                       PDict [("images",
                               PList [PDict [("url", PStr Sample.cover)];
                                      PDict [("url", PStr "small")]])]);
                      ("external_urls",
                       PDict [("spotify", PStr Sample.track_url)])];
               Sample.full_track]))
    "Bohemian Rhapsody" "Queen"
  = ([CatalogSearch (search_query "Bohemian Rhapsody" "Queen") 1 "track"],
     Ok (PDict
       [("preview_url", PNone);
        ("explicit", PBool false);
        ("spotify_id", PStr "7tFiyTwD0nx5a1eklYtX2J");
        ("album_cover", PStr Sample.cover);
        ("release_date", PStr "");
        ("spotify_url", PStr Sample.track_url)])).
Proof.
  exact (found_track_record
           (Sample.catalog
              (PList [PDict [("id", PStr "7tFiyTwD0nx5a1eklYtX2J");
                             ("album",
                              PDict [("images",
                                      PList
                                        [PDict [("url", PStr Sample.cover)];
                                         PDict [("url", PStr "small")]])]);
                             ("external_urls",
                              PDict [("spotify", PStr Sample.track_url)])];
                      Sample.full_track]))
           "Bohemian Rhapsody" "Queen"
           (d := [("id", PStr "7tFiyTwD0nx5a1eklYtX2J");
                  ("album",
                   PDict [("images",
                           PList [PDict [("url", PStr Sample.cover)];
                                  PDict [("url", PStr "small")]])]);
                  ("external_urls",
                   PDict [("spotify", PStr Sample.track_url)])])
           (a := [("images",
                   PList [PDict [("url", PStr Sample.cover)];
                          PDict [("url", PStr "small")]])])
           eq_refl eq_refl eq_refl eq_refl eq_refl eq_refl eq_refl eq_refl
           eq_refl eq_refl).
Defined.

(** X3.  A first match that lacks a key the record needs makes the lookup
    report that key and return [None], and the keys are read in the order
    of the record: ['id'] first, then ['album'] and its ['images'], then
    ['url'] in the first image when there are images, then
    ['external_urls'] and its ['spotify'], whether the album has images or
    not. *)
Theorem missing_key_is_named (self : MusicRecommender)
    (song_name artist_name : string) (results items : value)
    (d : list (string * value)) :
  sp_search self (search_query song_name artist_name) 1 "track" = Ok results ->
  tracks_items results = Ok items ->
  truthy items = true ->
  getitem items (KInt 0) = Ok (PDict d) ->
  let reports key :=
    get_song_info self song_name artist_name
    = ([CatalogSearch (search_query song_name artist_name) 1 "track";
        Error ("Track lookup error: '" ++ key ++ "'")], Ok PNone) in
  let cover_read images :=
    truthy images = false
    \/ (truthy images = true
        /\ exists image cover,
             getitem images (KInt 0) = Ok image
             /\ getitem image (KStr "url") = Ok cover) in
  (assoc "id" d = None -> reports "id")
  /\ (forall id,
        assoc "id" d = Some id -> assoc "album" d = None -> reports "album")
  /\ (forall id a,
        assoc "id" d = Some id ->
        assoc "album" d = Some (PDict a) ->
        assoc "images" a = None ->
        reports "images")
  /\ (forall id a images image,
        assoc "id" d = Some id ->
        assoc "album" d = Some (PDict a) ->
        assoc "images" a = Some images ->
        truthy images = true ->
        getitem images (KInt 0) = Ok (PDict image) ->
        assoc "url" image = None ->
        reports "url")
  /\ (forall id a images,
        assoc "id" d = Some id ->
        assoc "album" d = Some (PDict a) ->
        assoc "images" a = Some images ->
        cover_read images ->
        assoc "external_urls" d = None ->
        reports "external_urls")
  /\ (forall id a images links,
        assoc "id" d = Some id ->
        assoc "album" d = Some (PDict a) ->
        assoc "images" a = Some images ->
        cover_read images ->
        assoc "external_urls" d = Some (PDict links) ->
        assoc "spotify" links = None ->
        reports "spotify").
Proof.
  intros S I T F. cbv zeta.
  rewrite (get_song_info_first _ _ _ S I T F). unfold track_record.
  split; [|split; [|split; [|split; [|split]]]].
  - intros Hid. apply getitem_dict_missing in Hid.
    simp_m. now rewrite Hid.
  - intros id Hid Halbum.
    apply getitem_dict in Hid. apply getitem_dict_missing in Halbum.
    simp_m. rewrite Hid. simp_m. now rewrite Halbum.
  - intros id a Hid Halbum Himages.
    apply getitem_dict in Hid, Halbum. apply getitem_dict_missing in Himages.
    simp_m. rewrite Hid. simp_m. rewrite Halbum. simp_m. now rewrite Himages.
  - intros id a images image Hid Halbum Himages Htrue Hfirst Hurl.
    apply getitem_dict in Hid, Halbum, Himages.
    apply getitem_dict_missing in Hurl.
    repeat (simp_m;
            first [rewrite Hid | rewrite Halbum | rewrite Himages
                  | rewrite Htrue | rewrite Hfirst | rewrite Hurl]).
    reflexivity.
  - intros id a images Hid Halbum Himages Hcover Heu.
    apply getitem_dict in Hid, Halbum, Himages.
    apply getitem_dict_missing in Heu.
    destruct Hcover as [Hfalse | (Htrue & image & cover & Hfirst & Hurl)].
    + repeat (simp_m;
              first [rewrite Hid | rewrite Halbum | rewrite Himages
                    | rewrite Hfalse | rewrite Heu]).
      reflexivity.
    + repeat (simp_m;
              first [rewrite Hid | rewrite Halbum | rewrite Himages
                    | rewrite Htrue | rewrite Hfirst | rewrite Hurl
                    | rewrite Heu]).
      reflexivity.
  - intros id a images links Hid Halbum Himages Hcover Heu Hspotify.
    apply getitem_dict in Hid, Halbum, Himages, Heu.
    apply getitem_dict_missing in Hspotify.
    destruct Hcover as [Hfalse | (Htrue & image & cover & Hfirst & Hurl)].
    + repeat (simp_m;
              first [rewrite Hid | rewrite Halbum | rewrite Himages
                    | rewrite Hfalse | rewrite Heu | rewrite Hspotify]).
      reflexivity.
    + repeat (simp_m;
              first [rewrite Hid | rewrite Halbum | rewrite Himages
                    | rewrite Htrue | rewrite Hfirst | rewrite Hurl
                    | rewrite Heu | rewrite Hspotify]).
      reflexivity.
Qed.

Lemma missing_key_is_named_witness :
  get_song_info
    (Sample.catalog
       (PList [PDict [("id", PStr "7tFiyTwD0nx5a1eklYtX2J");
                      ("album",
                       PDict [("images",
                               PList [PDict [("url", PStr Sample.cover)]])])]]))
    "Bohemian Rhapsody" "Queen"
  = ([CatalogSearch (search_query "Bohemian Rhapsody" "Queen") 1 "track";
      Error "Track lookup error: 'external_urls'"], Ok PNone).
Proof.
  refine (proj1 (proj2 (proj2 (proj2 (proj2
    (missing_key_is_named
       (Sample.catalog
          (PList [PDict [("id", PStr "7tFiyTwD0nx5a1eklYtX2J");
                         ("album",
                          PDict [("images",
                                  PList
                                    [PDict [("url", PStr Sample.cover)]])])]]))
       "Bohemian Rhapsody" "Queen"
       (d := [("id", PStr "7tFiyTwD0nx5a1eklYtX2J");
              ("album",
               PDict [("images",
                       PList [PDict [("url", PStr Sample.cover)]])])])
       eq_refl eq_refl eq_refl eq_refl)))))
    (PStr "7tFiyTwD0nx5a1eklYtX2J")
    [("images", PList [PDict [("url", PStr Sample.cover)]])]
    (PList [PDict [("url", PStr Sample.cover)]])
    eq_refl eq_refl eq_refl _ eq_refl).
  right. split; [reflexivity|].
  exists (PDict [("url", PStr Sample.cover)]), (PStr Sample.cover).
  split; reflexivity.
Defined.

(** X4.  A first match that is not an object (a string, a number, a list,
    [null]) fails at once, on [track.get]: the lookup reports the
    [AttributeError] and returns [None]. *)
Theorem match_that_is_no_object (self : MusicRecommender)
    (song_name artist_name : string) (results items track : value) :
  sp_search self (search_query song_name artist_name) 1 "track" = Ok results ->
  tracks_items results = Ok items ->
  truthy items = true ->
  getitem items (KInt 0) = Ok track ->
  (forall d, track <> PDict d) ->
  get_song_info self song_name artist_name
  = ([CatalogSearch (search_query song_name artist_name) 1 "track";
      Error ("Track lookup error: '" ++ type_name track
               ++ "' object has no attribute 'get'")], Ok PNone).
Proof.
  intros S I T F N.
  rewrite (get_song_info_first _ _ _ S I T F). unfold track_record.
  destruct track as [| b | n | s | l | d]; try reflexivity.
  now destruct (N d).
Qed.

Lemma match_that_is_no_object_witness :
  get_song_info (Sample.catalog (PStr "abc")) "Bohemian Rhapsody" "Queen"
  = ([CatalogSearch (search_query "Bohemian Rhapsody" "Queen") 1 "track";
      Error "Track lookup error: 'str' object has no attribute 'get'"],
     Ok PNone).
Proof.
  apply (match_that_is_no_object (Sample.catalog (PStr "abc"))
           "Bohemian Rhapsody" "Queen"
           (results := PDict [("tracks", PDict [("items", PStr "abc")])])
           (items := PStr "abc") (track := PStr "a"));
    try reflexivity.
  intros d H. discriminate H.
Defined.

(** ** The display step, case by case *)

(** The three forms of a lookup: no match, a failure, a record. *)
Lemma get_song_info_forms (self : MusicRecommender)
    (song_name artist_name : string) :
  let q := search_query song_name artist_name in
  get_song_info self song_name artist_name
  = ([CatalogSearch q 1 "track"], Ok PNone)
  \/ (exists e,
        get_song_info self song_name artist_name
        = ([CatalogSearch q 1 "track";
            Error ("Track lookup error: " ++ exc_str e)], Ok PNone))
  \/ (exists preview_url explicit spotify_id album_cover release_date
             spotify_url,
        get_song_info self song_name artist_name
        = ([CatalogSearch q 1 "track"],
           Ok (PDict [("preview_url", preview_url);
                      ("explicit", explicit);
                      ("spotify_id", spotify_id);
                      ("album_cover", album_cover);
                      ("release_date", release_date);
                      ("spotify_url", spotify_url)]))).
Proof.
  cbv zeta.
  pose proof (get_song_info_eq self song_name artist_name) as E.
  cbv zeta in E. rewrite E.
  destruct (sp_search self (search_query song_name artist_name) 1 "track")
    as [results|e]; [|right; left; now exists e].
  destruct (match_record results) as [v|e] eqn:R;
    [|right; left; now exists e].
  apply match_record_Ok in R as (items & _ & [[_ ->] | [_ (track & _ & R)]]);
    [now left|].
  apply track_record_Ok in R
    as (p & x & i & c & r & u & _ & _ & -> & _).
  right; right. now exists p, x, i, c, r, u.
Qed.

(** X5.  [display_recommendation] has two courses only.  With no metadata
    (no match, or a lookup that failed), it raises the [AttributeError] of
    [None.get] right after laying out the columns: no image, no player and
    no track card are shown.  With a record, it never raises and shows, in
    this order: the cover, or the placeholder image when the cover is
    absent, with an empty caption; the audio preview when there is one, the
    "Open in Spotify" button of [spotify_url] otherwise; the track card,
    with the explicit-content note exactly when [explicit] is true. *)
Theorem display_has_two_courses (self : MusicRecommender)
    (song_name artist_name : string) :
  exists tr v,
    get_song_info self song_name artist_name = (tr, Ok v)
    /\ ((v = PNone
         /\ display_recommendation self song_name artist_name
            = (Spinner "🔍 Deep searching across multiple sources..."
                 :: tr ++ [Columns [1; 2]%Z],
               Raise attribute_error_get)%list)
        \/ (exists preview_url explicit spotify_id album_cover release_date
                   spotify_url,
              v = PDict [("preview_url", preview_url);
                         ("explicit", explicit);
                         ("spotify_id", spotify_id);
                         ("album_cover", album_cover);
                         ("release_date", release_date);
                         ("spotify_url", spotify_url)]
              /\ display_recommendation self song_name artist_name
                 = (Spinner "🔍 Deep searching across multiple sources..."
                      :: tr
                      ++ [Columns [1; 2]%Z;
                          Image
                            (if truthy album_cover then album_cover
                             else PStr no_cover)
                            (PStr "");
                          (if truthy preview_url
                           then Audio preview_url "audio/mp3"
                           else Markdown (SpotifyButton spotify_url));
                          Markdown
                            (TrackCard song_name artist_name
                               (if truthy explicit
                                then "⚠️ Explicit Content"
                                else ""))],
                    Ok tt)%list)).
Proof.
  destruct (get_song_info_forms self song_name artist_name)
    as [E | [[e E] | (p & x & i & c & r & u & E)]]; cbv zeta in E.
  - eexists _, _. split; [exact E|]. left. split; [reflexivity|].
    apply (display_recommendation_absent _ _ _ E).
  - eexists _, _. split; [exact E|]. left. split; [reflexivity|].
    apply (display_recommendation_absent _ _ _ E).
  - eexists _, _. split; [exact E|]. right.
    exists p, x, i, c, r, u. split; [reflexivity|].
    apply (display_recommendation_record _ _ _ E).
Qed.

Lemma display_requests (self : MusicRecommender)
    (song_name artist_name : string) :
  filter is_request
    (M.trace (display_recommendation self song_name artist_name)) = [].
Proof.
  apply length_zero_iff_nil.
  apply (proj1 (display_recommendation_cases self song_name artist_name)).
Qed.

Lemma display_searches (self : MusicRecommender)
    (song_name artist_name : string) :
  exists rest,
    M.trace (display_recommendation self song_name artist_name)
    = (Spinner "🔍 Deep searching across multiple sources..."
         :: CatalogSearch (search_query song_name artist_name) 1 "track"
         :: rest)%list
    /\ filter is_search rest = []
    /\ filter is_request rest = [].
Proof.
  destruct (get_song_info_forms self song_name artist_name)
    as [E | [[e E] | (p & x & i & c & r & u & E)]]; cbv zeta in E.
  - rewrite (display_recommendation_absent _ _ _ E).
    eexists. split; [reflexivity|]. split; reflexivity.
  - rewrite (display_recommendation_absent _ _ _ E).
    eexists. split; [reflexivity|]. split; reflexivity.
  - rewrite (display_recommendation_record _ _ _ E).
    eexists. split; [reflexivity|].
    destruct (truthy p); split; reflexivity.
Qed.

(** ** One click, case by case *)

Lemma run_try_forms (net : string -> result Requests.response)
    (self : MusicRecommender) (artist_name : string) :
  let url := request_url self artist_name in
  (exists e, run_try net self artist_name = ([HttpGet url], Raise e))
  \/ (exists response result title,
        net url = Ok response
        /\ Requests.raise_for_status response = Ok tt
        /\ Requests.json response = Ok result
        /\ recommended_song_of result = Ok title
        /\ run_try net self artist_name
           = (HttpGet url
                :: M.trace (display_recommendation self title artist_name),
              M.outcome (display_recommendation self title artist_name))).
Proof.
  cbv zeta. rewrite run_try_eq. cbv zeta.
  destruct (net (request_url self artist_name)) as [response|e] eqn:N;
    [|left; now exists e].
  destruct (Requests.raise_for_status response) as [[]|e] eqn:S;
    [|left; now exists e].
  destruct (Requests.json response) as [result|e] eqn:J;
    [|left; now exists e].
  destruct (recommended_song_of result) as [title|e] eqn:R;
    [|left; now exists e].
  right. now exists response, result, title.
Qed.

(** When the display step is reached, the two [except] clauses of [run]
    change nothing: the display raises nothing they take. *)
Lemma run_displayed (net : string -> result Requests.response)
    (self : MusicRecommender) (artist_name title : string) :
  ~ Spec.whitespace_only artist_name ->
  run_try net self artist_name
  = (HttpGet (request_url self artist_name)
       :: M.trace (display_recommendation self title artist_name),
     M.outcome (display_recommendation self title artist_name)) ->
  run net self artist_name true
  = (Markdown Heading
       :: HttpGet (request_url self artist_name)
       :: M.trace (display_recommendation self title artist_name),
     M.outcome (display_recommendation self title artist_name)).
Proof.
  intros B E. rewrite (run_nonblank net self B). cbv zeta.
  rewrite E, guarded_eq.
  destruct (display_recommendation_cases self title artist_name)
    as [_ [O | O]]; rewrite O; reflexivity.
Qed.

Lemma run_not_displayed (net : string -> result Requests.response)
    (self : MusicRecommender) (artist_name : string) (e : exc) :
  ~ Spec.whitespace_only artist_name ->
  run_try net self artist_name
  = ([HttpGet (request_url self artist_name)], Raise e) ->
  run net self artist_name true
  = if is_RequestException e
    then ([Markdown Heading;
           HttpGet (request_url self artist_name);
           Error ("Recommendation service unavailable: " ++ exc_str e)],
          Ok tt)
    else if is_KeyError e
    then ([Markdown Heading;
           HttpGet (request_url self artist_name);
           Error "Unexpected response format from API"], Ok tt)
    else ([Markdown Heading; HttpGet (request_url self artist_name)],
          Raise e).
Proof.
  intros B E. rewrite (run_nonblank net self B). cbv zeta.
  rewrite E, guarded_eq.
  destruct (is_RequestException e); [reflexivity|].
  destruct (is_KeyError e); reflexivity.
Qed.

Lemma run_idle (net : string -> result Requests.response)
    (self : MusicRecommender) (artist_name : string) (clicked : bool) :
  clicked = false \/ Spec.whitespace_only artist_name ->
  run net self artist_name clicked = ([Markdown Heading], Ok tt)
  \/ run net self artist_name clicked
     = ([Markdown Heading; Warning "Please enter an artist name"], Ok tt).
Proof.
  intros H. unfold run. rewrite bind_emit.
  destruct clicked; [|now left].
  destruct H as [H | H]; [discriminate H|].
  right. now rewrite (strip_blank H).
Qed.

(** X6.  A run of the page sends a request to the recommendation service
    only when the button was clicked with a name that is not blank, and then
    exactly one, to [<api_url>?artist_name=<name>]: the name goes into the
    URL as it was typed, neither stripped nor percent-encoded.  Without a
    click, or with a blank name, nothing is sent to the service and nothing
    to the catalog. *)
Theorem requests_of_a_run (net : string -> result Requests.response)
    (self : MusicRecommender) (artist_name : string) (clicked : bool) :
  (clicked = true ->
   ~ Spec.whitespace_only artist_name ->
   filter is_request (M.trace (run net self artist_name clicked))
   = [HttpGet (api_url self ++ "?artist_name=" ++ artist_name)])
  /\ (clicked = false \/ Spec.whitespace_only artist_name ->
      filter is_request (M.trace (run net self artist_name clicked)) = []
      /\ filter is_search (M.trace (run net self artist_name clicked)) = []).
Proof.
  split.
  - intros -> B.
    destruct (run_try_forms net self artist_name)
      as [[e E] | (response & result & title & _ & _ & _ & _ & E)];
      cbv zeta in E.
    + rewrite (@run_not_displayed net self artist_name e B E).
      destruct (is_RequestException e); [reflexivity|].
      destruct (is_KeyError e); reflexivity.
    + rewrite (@run_displayed net self artist_name title B E).
      cbn [M.trace fst filter is_request].
      now rewrite display_requests.
  - intros H.
    destruct (run_idle net self H) as [E | E];
      rewrite E; split; reflexivity.
Qed.

Lemma requests_of_a_run_witness :
  filter is_request
    (M.trace
       (run (Sample.answers [("recommended_song", PStr "Pick: Creep")])
          (Sample.catalog (PList [])) " Radiohead & co " true))
  = [HttpGet "http://127.0.0.1:8000/recommend/?artist_name= Radiohead & co "].
Proof.
  apply (proj1
    (requests_of_a_run
       (Sample.answers [("recommended_song", PStr "Pick: Creep")])
       (Sample.catalog (PList [])) " Radiohead & co " true)).
  - reflexivity.
  - intros H. apply strip_empty in H. discriminate H.
Defined.

(** X7.  A run searches the catalog at most once, and never before the
    recommendation service has answered with a title: either the catalog is
    not searched at all, or the run starts with the request, the spinner and
    one search for that title and the artist name as typed, and sends
    nothing more to either service. *)
Theorem search_follows_request (net : string -> result Requests.response)
    (self : MusicRecommender) (artist_name : string) (clicked : bool) :
  filter is_search (M.trace (run net self artist_name clicked)) = []
  \/ (exists response result title rest,
        net (request_url self artist_name) = Ok response
        /\ Requests.raise_for_status response = Ok tt
        /\ Requests.json response = Ok result
        /\ recommended_song_of result = Ok title
        /\ M.trace (run net self artist_name clicked)
           = [Markdown Heading;
              HttpGet (request_url self artist_name);
              Spinner "🔍 Deep searching across multiple sources...";
              CatalogSearch (search_query title artist_name) 1 "track"]
             ++ rest
        /\ filter is_search rest = []
        /\ filter is_request rest = [])%list.
Proof.
  destruct clicked.
  2: { left. unfold run. now rewrite bind_emit. }
  destruct (PyStr.strip artist_name) eqn:B.
  { left. apply strip_empty in B.
    destruct (run_idle net self (clicked := true) (or_intror B))
      as [E | E]; now rewrite E. }
  assert (NB : ~ Spec.whitespace_only artist_name).
  { intros H. apply strip_empty in H. now rewrite H in B. }
  destruct (run_try_forms net self artist_name)
    as [[e E] | (response & result & title & N & S & J & R & E)];
    cbv zeta in *.
  - left. rewrite (@run_not_displayed net self artist_name e NB E).
    destruct (is_RequestException e); [reflexivity|].
    destruct (is_KeyError e); reflexivity.
  - right. rewrite (@run_displayed net self artist_name title NB E).
    destruct (display_searches self title artist_name)
      as (rest & T & F1 & F2).
    exists response, result, title, rest.
    cbn [M.trace fst]. rewrite T. now repeat split.
Qed.

(** X8.  [run] never lets a [RequestException] or a [KeyError] out: what it
    raises, if it raises, is an exception of another class. *)
Theorem handled_classes_stay_inside
    (net : string -> result Requests.response) (self : MusicRecommender)
    (artist_name : string) (clicked : bool) (e : exc) :
  M.outcome (run net self artist_name clicked) = Raise e ->
  is_RequestException e = false /\ is_KeyError e = false.
Proof.
  destruct clicked.
  2: { unfold run. rewrite bind_emit. discriminate. }
  destruct (PyStr.strip artist_name) eqn:B.
  { apply strip_empty in B.
    destruct (run_idle net self (clicked := true) (or_intror B)) as [E | E];
      rewrite E; discriminate. }
  assert (NB : ~ Spec.whitespace_only artist_name).
  { intros H. apply strip_empty in H. now rewrite H in B. }
  destruct (run_try_forms net self artist_name)
    as [[e' E] | (response & result & title & _ & _ & _ & _ & E)];
    cbv zeta in E.
  - rewrite (@run_not_displayed net self artist_name e' NB E).
    destruct (is_RequestException e') eqn:R; [discriminate|].
    destruct (is_KeyError e') eqn:K; [discriminate|].
    cbn. intros H. inversion H; subst e'. now split.
  - rewrite (@run_displayed net self artist_name title NB E).
    intros H.
    change (M.outcome (display_recommendation self title artist_name)
            = Raise e) in H.
    destruct (display_recommendation_cases self title artist_name)
      as [_ [O | O]]; rewrite O in H; [discriminate H|].
    inversion H; subst e. now split.
Qed.

Lemma handled_classes_stay_inside_witness :
  is_RequestException attribute_error_get = false
  /\ is_KeyError attribute_error_get = false.
Proof.
  apply (handled_classes_stay_inside
           (Sample.answers [("recommended_song", PStr "Pick: Creep")])
           (Sample.catalog (PList [])) "Radiohead" true).
  reflexivity.
Defined.





(** X11.  When the request succeeds but the catalog lookup returns [None]
    (no match, or a lookup error), the run does not end with a fallback
    display: the [AttributeError] of [None.get] leaves [run] after the
    columns are laid out, with no image, no player and no track card. *)
Theorem absent_track_stops_the_run
    (net : string -> result Requests.response) (self : MusicRecommender)
    (artist_name : string) (response : Requests.response)
    (d : list (string * value)) (s : string) (tr : list event) :
  ~ Spec.whitespace_only artist_name ->
  net (request_url self artist_name) = Ok response ->
  Requests.raise_for_status response = Ok tt ->
  Requests.json response = Ok (PDict d) ->
  assoc "recommended_song" d = Some (PStr s) ->
  get_song_info self (Spec.title_of s) artist_name = (tr, Ok PNone) ->
  run net self artist_name true
  = (Markdown Heading
       :: HttpGet (request_url self artist_name)
       :: Spinner "🔍 Deep searching across multiple sources..."
       :: tr ++ [Columns [1; 2]%Z],
     Raise (mk_exc AttributeError
              "'NoneType' object has no attribute 'get'"))%list.
Proof.
  intros B N S J F G.
  assert (E : run_try net self artist_name
              = (HttpGet (request_url self artist_name)
                   :: M.trace
                        (display_recommendation self (Spec.title_of s)
                           artist_name),
                 M.outcome
                   (display_recommendation self (Spec.title_of s)
                      artist_name))).
  { rewrite run_try_eq. cbv zeta.
    now rewrite N, S, J, (recommended_song_of_string _ F). }
  rewrite (@run_displayed net self artist_name (Spec.title_of s) B E).
  now rewrite (display_recommendation_absent _ _ _ G).
Qed.

Lemma absent_track_stops_the_run_witness :
  run (Sample.answers [("recommended_song", PStr "Pick: Creep")])
    Sample.catalog_down "Radiohead" true
  = ([Markdown Heading;
      HttpGet "http://127.0.0.1:8000/recommend/?artist_name=Radiohead";
      Spinner "🔍 Deep searching across multiple sources...";
      CatalogSearch (search_query "Creep" "Radiohead") 1 "track";
      Error "Track lookup error: Read timed out.";
      Columns [1; 2]%Z],
     Raise (mk_exc AttributeError
              "'NoneType' object has no attribute 'get'")).
Proof.
  refine (absent_track_stops_the_run
            (Sample.answers [("recommended_song", PStr "Pick: Creep")])
            Sample.catalog_down
            (artist_name := "Radiohead")
            (response :=
               Requests.mk_response 200 "OK"
                 "http://127.0.0.1:8000/recommend/?artist_name=Radiohead"
                 (Ok (PDict [("recommended_song", PStr "Pick: Creep")])))
            (d := [("recommended_song", PStr "Pick: Creep")])
            (s := "Pick: Creep")
            (tr := [CatalogSearch (search_query "Creep" "Radiohead") 1
                      "track";
                    Error "Track lookup error: Read timed out."])
            _ eq_refl eq_refl eq_refl eq_refl eq_refl).
  intros H. apply strip_empty in H. discriminate H.
Defined.

(** X12.  A failure before the display is sorted by the class of its
    exception alone, wherever it comes from: raised by [requests.get] or by
    [response.json()], a [RequestException] gives the message
    "Recommendation service unavailable: ...", a [KeyError] the message
    "Unexpected response format from API", and an exception of any other
    class leaves [run] with no message at all. *)
Theorem failures_are_sorted_by_class
    (net : string -> result Requests.response) (self : MusicRecommender)
    (artist_name : string) (e : exc) :
  ~ Spec.whitespace_only artist_name ->
  net (request_url self artist_name) = Raise e
  \/ (exists response,
        net (request_url self artist_name) = Ok response
        /\ Requests.raise_for_status response = Ok tt
        /\ Requests.json response = Raise e) ->
  run net self artist_name true
  = if is_RequestException e
    then ([Markdown Heading;
           HttpGet (request_url self artist_name);
           Error ("Recommendation service unavailable: " ++ exc_str e)],
          Ok tt)
    else if is_KeyError e
    then ([Markdown Heading;
           HttpGet (request_url self artist_name);
           Error "Unexpected response format from API"], Ok tt)
    else ([Markdown Heading; HttpGet (request_url self artist_name)],
          Raise e).
Proof.
  intros B H.
  apply (@run_not_displayed net self artist_name e B).
  rewrite run_try_eq. cbv zeta.
  destruct H as [N | (response & N & S & J)].
  - now rewrite N.
  - now rewrite N, S, J.
Qed.

Lemma failures_are_sorted_by_class_witness :
  run
    (fun url =>
       Ok (Requests.mk_response 200 "OK" url
             (Raise (mk_exc OtherException
                       "Expecting value: line 1 column 1 (char 0)"))))
    (Sample.catalog (PList [])) "Radiohead" true
  = ([Markdown Heading;
      HttpGet "http://127.0.0.1:8000/recommend/?artist_name=Radiohead"],
     Raise (mk_exc OtherException
              "Expecting value: line 1 column 1 (char 0)")).
Proof.
  refine (failures_are_sorted_by_class
            (fun url =>
               Ok (Requests.mk_response 200 "OK" url
                     (Raise (mk_exc OtherException
                               "Expecting value: line 1 column 1 (char 0)"))))
            (Sample.catalog (PList []))
            (artist_name := "Radiohead")
            (e := mk_exc OtherException
                    "Expecting value: line 1 column 1 (char 0)")
            _ _).
  - intros H. apply strip_empty in H. discriminate H.
  - right. eexists. repeat split; reflexivity.
Defined.

(** X13.  The extracted title is empty in two cases only: the
    [recommended_song] string is empty, or it ends with [": "].  A string
    without [": "] is taken whole as the title. *)
Theorem title_is_empty_when (d : list (string * value)) (s : string) :
  assoc "recommended_song" d = Some (PStr s) ->
  (recommended_song_of (PDict d) = Ok ""
   <-> s = "" \/ exists p, s = p ++ ": ")
  /\ (Spec.after_last ": " s = None -> recommended_song_of (PDict d) = Ok s).
Proof.
  intros F. rewrite (recommended_song_of_string _ F). split.
  - unfold Spec.title_of. split.
    + intros H. destruct (Spec.after_last ": " s) as [r|] eqn:A.
      * inversion H; subst r.
        destruct (after_last_Some _ _ _ A) as [[p Hp] _].
        right. now exists p.
      * left. now inversion H.
    + intros [-> | [p ->]]; [reflexivity|].
      pose proof (after_last_colon_space p "" eq_refl) as A.
      change (p ++ ": " ++ "") with (p ++ ": ") in A. now rewrite A.
  - intros A. unfold Spec.title_of. now rewrite A.
Qed.

Lemma title_is_empty_when_witness :
  recommended_song_of (PDict [("recommended_song", PStr "Top Pick: ")])
  = Ok "".
Proof.
  apply (proj1
    (title_is_empty_when [("recommended_song", PStr "Top Pick: ")]
       (s := "Top Pick: ") eq_refl)).
  right. now exists "Top Pick".
Defined.

(** ** The alternate links, byte by byte *)

Lemma all_bytes_append (p : ascii -> bool) (s1 s2 : string) :
  all_bytes p (s1 ++ s2) = all_bytes p s1 && all_bytes p s2.
Proof.
  induction s1 as [|a s1 IH]; simpl; [reflexivity|].
  now rewrite IH, andb_assoc.
Qed.

Lemma all_bytes_flat_map (p : ascii -> bool) (f : ascii -> string)
    (s : string) :
  (forall a, all_bytes p (f a) = true) ->
  all_bytes p (Str.flat_map f s) = true.
Proof.
  intros H. induction s as [|a s IH]; simpl; [reflexivity|].
  now rewrite all_bytes_append, H, IH.
Qed.

Lemma quote_safe_bytes (s : string) :
  all_bytes (url_byte "/") (Urllib.quote s) = true.
Proof. apply all_bytes_flat_map. intros a. each_byte a; reflexivity. Qed.

Lemma quote_plus_safe_bytes (s : string) :
  all_bytes (url_byte "+") (Urllib.quote_plus s) = true.
Proof.
  rewrite quote_plus_is_space_as_plus.
  apply all_bytes_flat_map. intros a. each_byte a; reflexivity.
Qed.

Lemma all_bytes_weaken (p q : ascii -> bool) (s : string) :
  (forall a, p a = true -> q a = true) ->
  all_bytes p s = true -> all_bytes q s = true.
Proof.
  intros H. induction s as [|a s IH]; simpl; [reflexivity|].
  intros E. apply andb_true_iff in E as [E1 E2].
  now rewrite (H a E1), IH.
Qed.

(** X14.  Whatever the title and the artist name hold, the three search
    links, and the Spotify link when it is a search link, are made of
    letters, digits and the bytes [_ . - ~ % : / ? = +] only: no quote,
    angle bracket, ampersand, space or byte beyond ASCII of the text reaches
    the [href] of a link. *)
Theorem links_hold_safe_bytes (song_name artist_name : string)
    (spotify_id : option string) (service url : string) :
  In (service, url) (alternative_urls song_name artist_name spotify_id) ->
  service <> "Spotify Direct" \/ spotify_id = None \/ spotify_id = Some "" ->
  all_bytes (url_byte ":/?=+") url = true.
Proof.
  intros H C.
  assert (Q : all_bytes (url_byte ":/?=+")
                (Urllib.quote (song_name ++ " " ++ artist_name)) = true).
  { apply (all_bytes_weaken (url_byte "/")); [|apply quote_safe_bytes].
    intros a. each_byte a; intros E; try reflexivity; discriminate E. }
  assert (P : all_bytes (url_byte ":/?=+")
                (Urllib.quote_plus (song_name ++ " " ++ artist_name)) = true).
  { apply (all_bytes_weaken (url_byte "+")); [|apply quote_plus_safe_bytes].
    intros a. each_byte a; intros E; try reflexivity; discriminate E. }
  unfold alternative_urls in H.
  destruct H as [H | [H | [H | [H | []]]]];
    apply pair_equal_spec in H as [Hs <-].
  - destruct C as [C | [-> | ->]]; [now destruct C | |];
      cbn [truthy Str.is_empty negb];
      now rewrite all_bytes_append, Q.
  - now rewrite all_bytes_append, P.
  - now rewrite all_bytes_append, P.
  - now rewrite all_bytes_append, Q.
Qed.

Lemma links_hold_safe_bytes_witness :
  all_bytes (url_byte ":/?=+")
    "https://www.deezer.com/search/%22%3E%3Cscript%3E%20AC/DC%20%26%20co"
  = true.
Proof.
  apply (links_hold_safe_bytes
           (song_name := Str.dquote ++ "><script>")
           (artist_name := "AC/DC & co") (spotify_id := Some "abc123")
           (service := "Deezer")).
  - right; right; right; left. reflexivity.
  - left. discriminate.
Defined.

Lemma append_cancel (p s1 s2 : string) : p ++ s1 = p ++ s2 -> s1 = s2.
Proof.
  induction p as [|a p IH]; simpl; intros H; [exact H|].
  inversion H. now apply IH.
Qed.

(** X15.  The encoded text can be read back from a link: percent-decoding
    what follows the fixed head of the Deezer link, and decoding with ["+"]
    read as a space what follows the head of the YouTube Music link, give
    the text "<title> <artist>" again, byte for byte.  Hence two calls whose
    texts differ never build the same links. *)
Theorem links_can_be_read_back (song_name artist_name : string)
    (spotify_id : option string) :
  let text := song_name ++ " " ++ artist_name in
  (exists encoded,
     In ("Deezer", "https://www.deezer.com/search/" ++ encoded)
       (alternative_urls song_name artist_name spotify_id)
     /\ unquote encoded = text)
  /\ (exists encoded,
        In ("YouTube Music",
            "https://music.youtube.com/search?q=" ++ encoded)
          (alternative_urls song_name artist_name spotify_id)
        /\ unquote_plus encoded = text)
  /\ forall song_name' artist_name' spotify_id',
       alternative_urls song_name artist_name spotify_id
       = alternative_urls song_name' artist_name' spotify_id' ->
       text = song_name' ++ " " ++ artist_name'.
Proof.
  cbv zeta. split; [|split].
  - exists (Urllib.quote (song_name ++ " " ++ artist_name)).
    split; [|apply unquote_quote].
    unfold alternative_urls. do 3 right. now left.
  - exists (Urllib.quote_plus (song_name ++ " " ++ artist_name)).
    split; [|apply unquote_plus_quote_plus].
    unfold alternative_urls. right. now left.
  - intros song_name' artist_name' spotify_id' H.
    unfold alternative_urls in H.
    apply (f_equal (fun l => nth_error l 3)) in H. cbn [nth_error] in H.
    apply (f_equal (fun o => match o with
                             | Some (_, u) => u
                             | None => ""
                             end)) in H.
    cbv beta iota in H. apply append_cancel in H.
    rewrite <- (unquote_quote (song_name ++ " " ++ artist_name)), H.
    apply unquote_quote.
Qed.

(** ** Start-up *)

Lemma init_failed (h : Startup.host) (e : exc) :
  Startup.connect h = Raise e ->
  Startup._init_spotify_client h
  = ([Error ((if is_KeyError e
              then "Missing secret: "
              else "Failed to initialize Spotify client: ") ++ exc_str e)],
     Ok None).
Proof.
  intros C. unfold Startup._init_spotify_client.
  rewrite bind_lift, C. cbn.
  destruct (is_KeyError e); reflexivity.
Qed.

Lemma init_done (h : Startup.host) (sp : Startup.client) :
  Startup.connect h = Ok sp ->
  Startup._init_spotify_client h = ([], Ok (Some sp)).
Proof.
  intros C. unfold Startup._init_spotify_client.
  now rewrite bind_lift, C.
Qed.

(** X16.  A start-up that cannot build the catalog client is fatal.  When
    reading the client id, reading the client secret (the id being there)
    or constructing the client raises, the script shows one error and stops:
    "Missing secret: ..." for a [KeyError], "Failed to initialize Spotify
    client: ..." for any other exception.  The page is not styled, [run] is
    not called, and nothing is sent to either service.  A missing client id
    is reported without the client secret being read. *)
Theorem failed_startup_is_fatal
    (net : string -> result Requests.response) (h : Startup.host)
    (artist_name : string) (clicked : bool) (e : exc) :
  Startup.secrets h "SPOTIPY_CLIENT_ID" = Raise e
  \/ (exists id,
        Startup.secrets h "SPOTIPY_CLIENT_ID" = Ok id
        /\ Startup.secrets h "SPOTIPY_CLIENT_SECRET" = Raise e)
  \/ (exists id secret,
        Startup.secrets h "SPOTIPY_CLIENT_ID" = Ok id
        /\ Startup.secrets h "SPOTIPY_CLIENT_SECRET" = Ok secret
        /\ Startup.spotify h id secret = Raise e) ->
  Startup.main net h artist_name clicked
  = ([Startup.Shown
        (Error ((if is_KeyError e
                 then "Missing secret: "
                 else "Failed to initialize Spotify client: ")
                  ++ exc_str e))],
     Startup.Stopped).
Proof.
  intros H.
  assert (C : Startup.connect h = Raise e).
  { unfold Startup.connect. rewrite bind_lift.
    destruct H as [I | [(id & I & S) | (id & secret & I & S & K)]];
      rewrite I; [reflexivity | |]; rewrite bind_lift, S; [reflexivity|].
    now rewrite K. }
  unfold Startup.main, Startup.__init__.
  now rewrite (init_failed h C).
Qed.

Lemma failed_startup_is_fatal_witness :
  Startup.main
    (Sample.answers [("recommended_song", PStr "Pick: Creep")])
    (Startup.mk_host
       (fun key => Raise (key_error key))
       (fun _ _ => Ok (fun _ _ _ => Ok PNone))
       (fun _ => None))
    "Radiohead" true
  = ([Startup.Shown (Error "Missing secret: 'SPOTIPY_CLIENT_ID'")],
     Startup.Stopped).
Proof.
  apply (failed_startup_is_fatal
           (Sample.answers [("recommended_song", PStr "Pick: Creep")])
           (Startup.mk_host
              (fun key => Raise (key_error key))
              (fun _ _ => Ok (fun _ _ _ => Ok PNone))
              (fun _ => None))
           "Radiohead" true (e := key_error "SPOTIPY_CLIENT_ID")).
  left. reflexivity.
Defined.

Lemma run_sends (net : string -> result Requests.response)
    (self : MusicRecommender) (artist_name : string) :
  ~ Spec.whitespace_only artist_name ->
  filter is_request (M.trace (run net self artist_name true))
  = [HttpGet (request_url self artist_name)].
Proof.
  intros B.
  destruct (run_try_forms net self artist_name)
    as [[e E] | (response & result & title & _ & _ & _ & _ & E)];
    cbv zeta in E.
  - rewrite (@run_not_displayed net self artist_name e B E).
    destruct (is_RequestException e); [reflexivity|].
    destruct (is_KeyError e); reflexivity.
  - rewrite (@run_displayed net self artist_name title B E).
    cbn [M.trace fst filter is_request].
    now rewrite display_requests.
Qed.

(** X17.  A start-up that builds the catalog client styles the page in the
    order background, title, inputs, layout, and then runs the page with
    that client and the endpoint of the environment variable [API_URL], or
    [http://127.0.0.1:8000/recommend/] when the variable is not set; a click
    with a name that is not blank sends its one request to that endpoint. *)
Theorem startup_then_run (net : string -> result Requests.response)
    (h : Startup.host) (artist_name : string) (clicked : bool)
    (sp : Startup.client) :
  Startup.connect h = Ok sp ->
  let endpoint :=
    match Startup.getenv h "API_URL" with
    | Some u => u
    | None => "http://127.0.0.1:8000/recommend/"
    end in
  let page := run net (mk_recommender endpoint sp) artist_name clicked in
  Startup.main net h artist_name clicked
  = ([Startup.Styled Startup.Background;
      Startup.Styled Startup.Title;
      Startup.Styled Startup.InputStyle;
      Startup.Styled Startup.MainLayout]
       ++ map Startup.Shown (M.trace page),
     Startup.Finished (M.outcome page))%list
  /\ (clicked = true ->
      ~ Spec.whitespace_only artist_name ->
      filter is_request (M.trace page)
      = [HttpGet (endpoint ++ "?artist_name=" ++ artist_name)]).
Proof.
  intros C. cbv zeta. split.
  - unfold Startup.main, Startup.__init__.
    now rewrite (init_done h C).
  - intros -> B. now rewrite (run_sends net _ B).
Qed.

Lemma startup_then_run_witness :
  Startup.main
    (Sample.answers [("detail", PStr "no recommendation")])
    (Startup.mk_host
       (fun key => Ok key)
       (fun _ _ => Ok (fun _ _ _ => Ok PNone))
       (fun _ => Some "https://example.org/recommend"))
    "Radiohead" true
  = ([Startup.Styled Startup.Background;
      Startup.Styled Startup.Title;
      Startup.Styled Startup.InputStyle;
      Startup.Styled Startup.MainLayout;
      Startup.Shown (Markdown Heading);
      Startup.Shown
        (HttpGet "https://example.org/recommend?artist_name=Radiohead");
      Startup.Shown (Error "Unexpected response format from API")],
     Startup.Finished (Ok tt)).
Proof.
  exact (proj1
    (startup_then_run
       (Sample.answers [("detail", PStr "no recommendation")])
       (Startup.mk_host
          (fun key => Ok key)
          (fun _ _ => Ok (fun _ _ _ => Ok PNone))
          (fun _ => Some "https://example.org/recommend"))
       "Radiohead" true
       (sp := fun _ _ _ => Ok PNone) eq_refl)).
Defined.
